(** * point-cli: a shallow embedding of [cli.js]

  The command-line client keeps a bearer token and a list of devices in a
  config store, sends one request (two for [auth]) to the remote API and
  prints what comes back.  The embedding follows the file top to bottom:
  the values the program handles, the library calls it relies on (lodash,
  dateformat, chalk, axios, configstore), its five helper functions and
  its ten command actions. *)

From Stdlib Require Import List String Ascii Bool Arith ZArith QArith Qround Qabs Lia.
From Stdlib Require Import DecimalString Lqa.
From Stdlib Require SpecFloat.
Import ListNotations.

Local Open Scope nat_scope.
Local Open Scope list_scope.
Local Open Scope string_scope.

(* ================================================================== *)
(** * Values *)

(** A cached device, [{id: ..., name: ...}]. *)
Record DeviceRecord := mkDevice { id : string; name : string }.

(** A JavaScript [Date], seen through the local-time getters that dateformat
    calls: [getFullYear], [getMonth] (0 = January), [getDate], [getHours],
    [getMinutes]. *)
Record Date := mkDate {
  fullYear : nat; month : nat; date : nat; hours : nat; minutes : nat }.

(** An entry of [res.data.devices]. *)
Record RemoteDevice := mkRemote {
  device_id : string;
  description : string;
  offline : bool;
  active : bool;
  last_heard_from_at : Date }.

(** A JavaScript number as the program holds it after [JSON.parse]: an
    IEEE 754 double, that is a zero, an infinity, [NaN] or a sign, a
    mantissa and a binary exponent. *)
Definition Double : Set := SpecFloat.spec_float.

(** An entry of [res.data.values]. *)
Record SensorSample := mkSample { value : Double; datetime : Date }.

(** An entry of [event.text_params]. *)
Record TextParam := mkParam { param_value : string }.

(** An entry of [res.data.events]. *)
Record TimelineEvent := mkEvent {
  type : string; created_at : Date; text_params : list TextParam }.

(** The config file: the two keys the program reads and writes. [None] is a
    key that is not there ([conf.get] gives [undefined]). *)
Record Config := mkConfig {
  token : option string;
  devices : option (list DeviceRecord) }.

(** A JavaScript number as far as [ToNumber] of a string can produce one. *)
Inductive Number :=
  | NaN
  | Finite (q : Q)
  | PosInfinity
  | NegInfinity.

(** What the JavaScript host and lodash do on text outside the ASCII
    letters, digits and blanks this program is written for; taken as given.
    - [deburr_nonascii s]: [deburr(s).replace(reApos, '')] for [s] with a
      character outside ASCII;
    - [unicodeWords s]: the matches of lodash's [reUnicodeWord] in [s];
    - [upperFirst_nonascii s]: [_.upperFirst(s)] for [s] starting outside
      ASCII;
    - [StrNumericLiteral s]: the value of [s] read as a numeric literal,
      [NaN] when it is none. *)
Record Host := mkHost {
  deburr_nonascii : string -> string;
  unicodeWords : string -> list string;
  upperFirst_nonascii : string -> string;
  StrNumericLiteral : string -> Number }.

(* ================================================================== *)
(** * Characters and strings *)

Definition code (c : ascii) : nat := nat_of_ascii c.

Definition between (lo hi : nat) (c : ascii) : bool :=
  ((lo <=? code c) && (code c <=? hi))%nat.

Definition isLower (c : ascii) : bool := between 97 122 c.
Definition isUpper (c : ascii) : bool := between 65 90 c.
Definition isDigit (c : ascii) : bool := between 48 57 c.
Definition isAlpha (c : ascii) : bool := isLower c || isUpper c.
Definition isAlnum (c : ascii) : bool := isAlpha c || isDigit c.
Definition isSpace (c : ascii) : bool := (code c =? 32)%nat.
Definition isAscii (c : ascii) : bool := (code c <? 128)%nat.

(** [c.toUpperCase()] on an ASCII character. *)
Definition toUpperCase (c : ascii) : ascii :=
  if isLower c then ascii_of_nat (code c - 32) else c.

Fixpoint forall_chars (p : ascii -> bool) (s : string) : bool :=
  match s with
  | EmptyString => true
  | String c s' => p c && forall_chars p s'
  end.

Fixpoint map_chars (f : ascii -> ascii) (s : string) : string :=
  match s with
  | EmptyString => EmptyString
  | String c s' => String (f c) (map_chars f s')
  end.

Fixpoint filter_chars (p : ascii -> bool) (s : string) : string :=
  match s with
  | EmptyString => EmptyString
  | String c s' => if p c then String c (filter_chars p s') else filter_chars p s'
  end.

Definition newline : string := String (ascii_of_nat 10) EmptyString.

(** [String(n)] for a natural number. *)
Definition string_of_nat (n : nat) : string :=
  NilZero.string_of_uint (Nat.to_uint n).

(** [`${v}`] for a string that may be [undefined]. *)
Definition template (v : option string) : string :=
  match v with
  | Some s => s
  | None => "undefined"
  end.

(* ================================================================== *)
(** * Library calls *)

(** ** configstore *)
Module Configstore.

Definition get_token (c : Config) : option string := token c.
Definition get_devices (c : Config) : option (list DeviceRecord) := devices c.

(** [conf.set(key, value)] rewrites the file as JSON, which drops a key
    whose value is [undefined]. *)
Definition set_token (v : option string) (c : Config) : Config :=
  mkConfig v (devices c).
Definition set_devices (l : list DeviceRecord) (c : Config) : Config :=
  mkConfig (token c) (Some l).

(** [conf.clear()] *)
Definition clear (c : Config) : Config := mkConfig None None.

End Configstore.

(** ** lodash *)
Module Lodash.

(** [_.find(collection, predicate)]: the first element the predicate
    accepts, [undefined] when there is none or the collection is nullish. *)
Fixpoint find {A} (p : A -> bool) (l : list A) : option A :=
  match l with
  | [] => None
  | x :: l' => if p x then Some x else find p l'
  end.

(** [_.first(array)] *)
Definition first {A} (l : list A) : option A :=
  match l with
  | [] => None
  | x :: _ => Some x
  end.

(** [_.last(array)]: [length ? array[length - 1] : undefined] *)
Definition last {A} (l : list A) : option A :=
  match List.length l with
  | O => None
  | S k => nth_error l k
  end.



(** [_.replace(s, /:/g, ' ')] *)
Definition replace_colons (s : string) : string :=
  map_chars (fun c => if Ascii.eqb c ":" then " "%char else c) s.

(** [reAsciiWord = /[^\x00-\x2f\x3a-\x40\x5b-\x60\x7b-\x7f]+/g] takes runs
    of characters outside these four ranges. *)
Definition isAsciiWordChar (c : ascii) : bool :=
  negb (between 0 47 c || between 58 64 c || between 91 96 c || between 123 127 c).

Definition flush (cur : string) : list string :=
  match cur with
  | EmptyString => []
  | _ => [cur]
  end.

(** The matches of a one-class pattern [[class]+] with the [g] flag: the
    maximal runs, left to right; [cur] is the run being read. *)
Fixpoint runs (p : ascii -> bool) (cur s : string) : list string :=
  match s with
  | EmptyString => flush cur
  | String c s' =>
      if p c then runs p (cur ++ String c EmptyString) s'
      else (flush cur ++ runs p EmptyString s')%list
  end.

Definition asciiWords (s : string) : list string := runs isAsciiWordChar EmptyString s.

(** [reHasUnicodeWord =
     /[a-z][A-Z]|[A-Z]{2}[a-z]|[0-9][a-zA-Z]|[a-zA-Z][0-9]|[^a-zA-Z0-9 ]/]
    tested at every position. *)
Fixpoint hasUnicodeWord (s : string) : bool :=
  match s with
  | EmptyString => false
  | String a s1 =>
      negb (isAlnum a || isSpace a)
      || match s1 with
         | EmptyString => false
         | String b s2 =>
             (isLower a && isUpper b)
             || (isDigit a && isAlpha b)
             || (isAlpha a && isDigit b)
             || (isUpper a && isUpper b
                 && match s2 with
                    | EmptyString => false
                    | String c _ => isLower c
                    end)
         end
      || hasUnicodeWord s1
  end.

(** [deburr(string).replace(reApos, '')]: on ASCII text [deburr] changes
    nothing and the apostrophes go. *)
Definition deburr_unapos (h : Host) (s : string) : string :=
  if forall_chars isAscii s
  then filter_chars (fun c => negb (Ascii.eqb c "'")) s
  else deburr_nonascii h s.

(** [_.words(string)] *)
Definition words (h : Host) (s : string) : list string :=
  if hasUnicodeWord s then unicodeWords h s else asciiWords s.

(** [_.upperFirst(string)] *)
Definition upperFirst (h : Host) (s : string) : string :=
  match s with
  | EmptyString => EmptyString
  | String c rest =>
      if isAscii c then String (toUpperCase c) rest else upperFirst_nonascii h s
  end.

(** [arrayReduce(words, callback, '')] with the callback of [startCase]:
    [result + (index ? ' ' : '') + upperFirst(word)]. *)
Fixpoint reduce_startCase (h : Host) (ws : list string) (index : nat) (result : string) : string :=
  match ws with
  | [] => result
  | word :: ws' =>
      reduce_startCase h ws' (S index)
        (result ++ (if (index =? 0)%nat then "" else " ") ++ upperFirst h word)
  end.

(** [_.startCase(string)] *)
Definition startCase (h : Host) (s : string) : string :=
  reduce_startCase h (words h (deburr_unapos h s)) 0 "".

End Lodash.

(** ** dateformat *)
Module Dateformat.

(** [pad(val, len)]: zeros on the left up to [len] characters. *)
Fixpoint zeros (n : nat) : string :=
  match n with
  | O => EmptyString
  | S k => String "0" (zeros k)
  end.

Definition pad (val len : nat) : string :=
  let s := string_of_nat val in
  zeros (len - String.length s) ++ s.

(** The flags of the mask this program uses: [HH: pad(H)], [MM: pad(M)],
    [dd: pad(d)], [mm: pad(m + 1)], [yyyy: y]. *)
Definition HH (d : Date) : string := pad (hours d) 2.
Definition MM (d : Date) : string := pad (minutes d) 2.
Definition dd (d : Date) : string := pad (date d) 2.
Definition mm (d : Date) : string := pad (month d + 1) 2.
Definition yyyy (d : Date) : string := string_of_nat (fullYear d).

(** [dateFormat(date, 'HH:MM dd/mm/yyyy')]: each flag of the mask replaced
    by its value, the other characters kept. *)
Definition dateFormat_HH_MM_dd_mm_yyyy (d : Date) : string :=
  HH d ++ ":" ++ MM d ++ " " ++ dd d ++ "/" ++ mm d ++ "/" ++ yyyy d.

End Dateformat.

(* ================================================================== *)
(** * Helper functions of [cli.js] *)

(** The shorthand [['name', deviceName]] of [_.find]: lodash compares
    [object.name === deviceName], and for [deviceName === undefined] also
    asks that the object has the key; a cached name is a string, which is
    never [=== undefined]. *)
Definition matchesProperty_name (deviceName : option string) (d : DeviceRecord) : bool :=
  match deviceName with
  | Some n => String.eqb (name d) n
  | None => false
  end.

(** [a || b] where [a] is an object or [undefined]. *)
Definition or_else {A} (a b : option A) : option A :=
  match a with
  | Some x => Some x
  | None => b
  end.

(** A collection that may be [undefined]: lodash iterates a nullish
    collection as an empty one. *)
Definition elements {A} (o : option (list A)) : list A :=
  match o with
  | Some l => l
  | None => []
  end.

(** [getDevice]: the device of that name if recognised, otherwise the
    first one. *)
Definition getDevice (conf : Config) (deviceName : option string) : option DeviceRecord :=
  let devices := Configstore.get_devices conf in
  or_else (Lodash.find (matchesProperty_name deviceName) (elements devices))
          (Lodash.first (elements devices)).

(** [formatDate] *)
Definition formatDate (d : Date) : string :=
  Dateformat.dateFormat_HH_MM_dd_mm_yyyy d.

(** [timelinePrettier]: colons to spaces, then start case. *)
Definition timelinePrettier (h : Host) (s : string) : string :=
  Lodash.startCase h (Lodash.replace_colons s).

(* ================================================================== *)
(** * What the program does to the outside *)

(** ** chalk and the console *)
Inductive Chalk := green | yellow | red | underline.

(** A line handed to [console.log]: string pieces, a number turned into
    text by [+] or a template ([OfNumber x] for [x], [OfRounded x p] for
    [_.round(x, p)]), a chalk style around a piece. *)
Inductive Text :=
  | Lit (s : string)
  | OfNumber (x : Double)
  | OfRounded (x : Double) (precision : Z)
  | Styled (c : Chalk) (t : Text)
  | Cat (a b : Text).

Declare Scope text_scope.
Delimit Scope text_scope with text.
Bind Scope text_scope with Text.
Notation "a +++ b" := (Cat a b) (at level 60, right associativity) : text_scope.

(** ** axios *)
Inductive ParamValue :=
  | PString (s : string)
  | PNumber (n : Z)
  | PTrue.

Record Request := mkRequest {
  path : string;
  params : list (string * ParamValue);
  Authorization : option string }.

(** The body of a non-success response. *)
Record ErrorBody := mkError { message : string }.

Inductive Response (A : Type) :=
  | Resolved (data : A)
  | Rejected (res : ErrorBody).
Arguments Resolved {A} data.
Arguments Rejected {A} res.

Record AuthBody := mkAuth { access_token : option string }.

(** The remote API, one answer per request and endpoint. *)
Record Remote := mkRemoteApi {
  auth_token : Request -> Response AuthBody;
  all_devices : Request -> Response (list RemoteDevice);
  sensor_values : Request -> Response (list SensorSample);
  events : Request -> Response (list TimelineEvent) }.

(** The response a [--debug] run inspects. *)
Inductive Body :=
  | DevicesBody (l : list RemoteDevice)
  | ValuesBody (l : list SensorSample)
  | EventsBody (l : list TimelineEvent).

(** ** Exceptions and rejections *)
(** What is thrown: the error axios rejects with, which holds the response
    [res] under [response], or the [TypeError] of reading the named
    property of [undefined]. *)
Inductive Reason :=
  | HttpError (res : ErrorBody)
  | TypeError (property : string).

(** ** The trace of a run *)
Inductive Event :=
  | Log (t : Text)
  | Inspected (b : Body)
  | Get (r : Request)
  | SetToken (v : option string)
  | SetDevices (l : list DeviceRecord)
  | Clear
  | UnhandledRejection (r : Reason).

(** How a piece of code ends: normally, by throwing (a rejected promise in
    a chain), or in [process.exit]. *)
Inductive Completion (A : Type) :=
  | Normal (a : A)
  | Throw (r : Reason)
  | Exit (code : Z).
Arguments Normal {A} a.
Arguments Throw {A} r.
Arguments Exit {A} code.

(** Code that reads and writes the config store and leaves events. *)
Definition M (A : Type) : Type := Config -> Completion A * Config * list Event.

Definition ret {A} (a : A) : M A := fun c => (Normal a, c, []).

Definition bind {A B} (m : M A) (f : A -> M B) : M B :=
  fun c =>
    match m c with
    | (Normal a, c1, t1) =>
        match f a c1 with
        | (r, c2, t2) => (r, c2, (t1 ++ t2)%list)
        end
    | (Throw r, c1, t1) => (Throw r, c1, t1)
    | (Exit n, c1, t1) => (Exit n, c1, t1)
    end.

Notation "x <- m ;; k" := (bind m (fun x => k))
  (at level 61, m at next level, right associativity).
Notation "m ;; k" := (bind m (fun _ => k))
  (at level 61, right associativity).

Definition emit (e : Event) : M unit := fun c => (Normal tt, c, [e]).
Definition throw {A} (r : Reason) : M A := fun c => (Throw r, c, []).
Definition process_exit {A} (n : Z) : M A := fun c => (Exit n, c, []).
Definition console_log (t : Text) : M unit := emit (Log t).
Definition get_conf : M Config := fun c => (Normal c, c, []).

Definition conf_set_token (v : option string) : M unit :=
  fun c => (Normal tt, Configstore.set_token v c, [SetToken v]).
Definition conf_set_devices (l : list DeviceRecord) : M unit :=
  fun c => (Normal tt, Configstore.set_devices l c, [SetDevices l]).
Definition conf_clear : M unit :=
  fun c => (Normal tt, Configstore.clear c, [Clear]).

(** [promise.catch(handler)] *)
Definition catch {A} (m : M A) (handler : Reason -> M A) : M A :=
  fun c =>
    match m c with
    | (Throw r, c1, t1) =>
        match handler r c1 with
        | (r', c2, t2) => (r', c2, (t1 ++ t2)%list)
        end
    | other => other
    end.

(** A promise chain whose value nobody takes: the caller goes on, and a
    rejection left at its end is an unhandled rejection. *)
Definition detach (m : M unit) : M unit :=
  fun c =>
    match m c with
    | (Throw r, c1, t1) => (Normal tt, c1, (t1 ++ [UnhandledRejection r])%list)
    | other => other
    end.

(** [axios.get(path, config)]: the request goes out; the promise resolves
    with the data or rejects with an error that holds the response. *)
Definition axios_get {A} (endpoint : Request -> Response A) (r : Request) : M A :=
  emit (Get r) ;;
  match endpoint r with
  | Resolved data => ret data
  | Rejected res => throw (HttpError res)
  end.

(** [_.map(array, f)] and [for (var x of array) body], [f] with effects. *)
Fixpoint mapM {A B} (f : A -> M B) (l : list A) : M (list B) :=
  match l with
  | [] => ret []
  | x :: l' => y <- f x ;; ys <- mapM f l' ;; ret (y :: ys)
  end.

Fixpoint for_of {A} (l : list A) (body : A -> M unit) : M unit :=
  match l with
  | [] => ret tt
  | x :: l' => body x ;; for_of l' body
  end.

Definition when (b : bool) (m : M unit) : M unit := if b then m else ret tt.

(** [res.data.message] in a [catch] handler: what the handler gets is an
    error object, the one of axios with the response under [response] or a
    [TypeError]; neither has a [data], and reading [message] of
    [undefined] throws. *)
Definition data_message (res : Reason) : M string :=
  match res with
  | HttpError _ => throw (TypeError "message")
  | TypeError _ => throw (TypeError "message")
  end.

(* ================================================================== *)
(** * Comparing an array with a number *)

(** [Array.prototype.toString] on an array of plain objects. *)
Definition Array_toString {A} (l : list A) : string :=
  String.concat "," (map (fun _ => "[object Object]") l).

Definition isWhiteSpace (c : ascii) : bool :=
  between 9 13 c || isSpace c.

Fixpoint trimStart (s : string) : string :=
  match s with
  | EmptyString => EmptyString
  | String c s' => if isWhiteSpace c then trimStart s' else s
  end.

(** The ASCII characters a numeric literal can start with: a digit, a
    sign, a dot, the [I] of [Infinity]. *)
Definition startsNumeric (c : ascii) : bool :=
  isDigit c || Ascii.eqb c "+" || Ascii.eqb c "-" || Ascii.eqb c "." || Ascii.eqb c "I".

(** [ToNumber] of a string: blank text is 0; text that starts with an
    ASCII character no numeric literal starts with is [NaN]. *)
Definition StringToNumber (h : Host) (s : string) : Number :=
  match trimStart s with
  | EmptyString => Finite 0
  | String c _ as t =>
      if isAscii c && negb (startsNumeric c) then NaN else StrNumericLiteral h t
  end.

(** [x > 1] for a number [x]: false for [NaN]. *)
Definition gt_1 (x : Number) : bool :=
  match x with
  | NaN => false
  | Finite q => if Qlt_le_dec 1 q then true else false
  | PosInfinity => true
  | NegInfinity => false
  end.

(** [array > 1]: the array becomes a string, the string a number. *)
Definition Array_gt_1 {A} (h : Host) (l : list A) : bool :=
  gt_1 (StringToNumber h (Array_toString l)).

(* ================================================================== *)
(** * The program *)

(** The axios instance [req], made when the file is loaded: its header
    holds the token the store had then. *)
Record Client := mkClient { headers_Authorization : string }.

Definition create_req (conf : Config) : Client :=
  mkClient ("Bearer " ++ template (Configstore.get_token conf)).

(** [req.get(path, config)] *)
Definition req_get {A} (req : Client) (endpoint : Request -> Response A)
    (path : string) (params : list (string * ParamValue)) : M A :=
  axios_get endpoint (mkRequest path params (Some (headers_Authorization req))).

(** Whether a value read from the store counts as true in [if]. *)
Definition truthy (v : option string) : bool :=
  match v with
  | None => false
  | Some s => negb (String.eqb s "")
  end.

Definition guidance : Text :=
  Styled yellow
    (Lit "You don't have an access token yet! Run "
     +++ Styled underline (Lit "point auth")
     +++ Lit " to get started.")%text.

(** [fetchDevices]: fetch all known devices for the user and store them. *)
Definition fetchDevices (api : Remote) : M unit :=
  conf <- get_conf ;;
  let config :=
    mkRequest "/devices" [] (Some ("Bearer " ++ template (Configstore.get_token conf))) in
  console_log (Styled green (Lit "Fetching Points...")) ;;
  detach
    (catch
       (res <- axios_get (all_devices api) config ;;
        console_log (Lit ("Found " ++ string_of_nat (List.length res) ++ " Point")) ;;
        allDevices <-
          mapM (fun n =>
                  console_log (Lit ("Name: " ++ description n)) ;;
                  ret (mkDevice (device_id n) (description n))) res ;;
        conf_set_devices allDevices)
       (fun res =>
          m <- data_message res ;;
          console_log (Styled red (Lit m)))).

(** [auth]: authorise the user. *)
Definition auth (api : Remote) (client_id username password : string) : M unit :=
  let config :=
    mkRequest "/auth/token"
      [("client_id", PString client_id); ("grant_type", PString "password");
       ("username", PString username); ("password", PString password)]
      None in
  detach
    (catch
       (res <- axios_get (auth_token api) config ;;
        conf_set_token (access_token res) ;;
        console_log (Styled green (Lit "Access token generated and saved!")) ;;
        fetchDevices api)
       (fun res =>
          m <- data_message res ;;
          console_log (Styled yellow (Lit m)))).

(** [checkAuth]: check authentication and exit if not authorised yet. *)
Definition checkAuth : M bool :=
  conf <- get_conf ;;
  if truthy (Configstore.get_token conf) then ret true
  else console_log guidance ;; process_exit 1.

(** [if (opts.debug) console.log(util.inspect(res, ...))] *)
Definition debug_inspect (debug : bool) (b : Body) : M unit :=
  when debug (emit (Inspected b)).

Definition tick (b : bool) : string := if b then "✔" else "✗".

(** The action of [devices]. *)
Definition devices_action (h : Host) (api : Remote) (req : Client)
    (verbose debug : bool) : M unit :=
  checkAuth ;;
  detach
    (res <- req_get req (all_devices api) "/devices" [] ;;
     debug_inspect debug (DevicesBody res) ;;
     for_of res (fun device =>
       console_log (Lit "Name: " +++ Styled green (Lit (description device))) ;;
       console_log (Lit "ID: " +++ Styled green (Lit (device_id device))) ;;
       when verbose
         (console_log (Lit "Online: " +++ Styled green (Lit (tick (negb (offline device))))) ;;
          console_log (Lit "Active: " +++ Styled green (Lit (tick (active device)))) ;;
          console_log (Lit "Last seen: "
                       +++ Styled green (Lit (formatDate (last_heard_from_at device))))) ;;
       when (Array_gt_1 h res) (console_log (Lit newline)))).

(** The six sensor commands differ in the endpoint, the label and the way
    the value is shown. *)
Inductive Sensor := temp | humidity | sound | light | lightir | pressure.

Definition sensor_endpoint (s : Sensor) : string :=
  match s with
  | temp => "temperature"
  | humidity => "humidity"
  | sound => "sound_avg_levels"
  | light => "part_als"
  | lightir => "part_als_ir"
  | pressure => "pressure"
  end.

Definition sensor_label (s : Sensor) : string :=
  match s with
  | temp => "Temp: "
  | humidity => "Humidity: "
  | sound => "Avg sound: "
  | light => "Avg light: "
  | lightir => "Avg light IR: "
  | pressure => "Avg pressure: "
  end.

Definition sensor_value (s : Sensor) (newest : SensorSample) : Text :=
  match s with
  | temp => (OfRounded (value newest) 2 +++ Lit "°C")%text
  | humidity => (OfNumber (value newest) +++ Lit "%")%text
  | _ => OfNumber (value newest)
  end.

(** The action of [temp], [humidity], [sound], [light], [lightir] and
    [pressure]. *)
Definition sensor_action (api : Remote) (req : Client) (s : Sensor)
    (device : option string) (debug : bool) : M unit :=
  checkAuth ;;
  conf <- get_conf ;;
  match getDevice conf device with
  | None => throw (TypeError "name")
  | Some point =>
      console_log (Lit "Point: " +++ Styled green (Lit (name point))) ;;
      detach
        (res <- req_get req (sensor_values api)
                  ("/devices/" ++ id point ++ "/" ++ sensor_endpoint s) [] ;;
         debug_inspect debug (ValuesBody res) ;;
         match Lodash.last res with
         | None => throw (TypeError "value")
         | Some newest =>
             console_log (Lit (sensor_label s) +++ Styled green (sensor_value s newest)) ;;
             console_log (Lit "Time: " +++ Styled green (Lit (formatDate (datetime newest))))
         end)
  end.

(** The value of [--limit [number]]: [true] when the flag comes without a
    number, the text after it otherwise. *)
Inductive OptionValue :=
  | OptTrue
  | OptString (s : string).

(** [(opts.limit) ? opts.limit : 10] *)
Definition limit_param (limit : option OptionValue) : ParamValue :=
  match limit with
  | None => PNumber 10
  | Some OptTrue => PTrue
  | Some (OptString s) => if String.eqb s "" then PNumber 10 else PString s
  end.

Definition render_event (h : Host) (event : TimelineEvent) : M unit :=
  console_log (Styled green (Lit "↓")) ;;
  console_log (Lit "Date:   " +++ Styled green (Lit (formatDate (created_at event)))) ;;
  let text_params := firstn 1 (text_params event) in
  for_of text_params (fun param =>
    console_log (Lit "Device: " +++ Styled green (Lit (param_value param)))) ;;
  console_log (Lit "Event:  " +++ Styled green (Lit (timelinePrettier h (type event)))).

(** The action of [timeline]. *)
Definition timeline_action (h : Host) (api : Remote) (req : Client)
    (limit : option OptionValue) (debug : bool) : M unit :=
  checkAuth ;;
  let config := [("order", PString "desc"); ("limit", limit_param limit)] in
  detach
    (timeline <- req_get req (events api) "/events" config ;;
     debug_inspect debug (EventsBody timeline) ;;
     console_log (Styled green (Lit "→ Present")) ;;
     for_of timeline (render_event h) ;;
     console_log (Styled green (Lit "→ Past"))).

(** The command line, parsed. *)
Inductive Command :=
  | CmdAuth (client_id username password : string)
  | CmdLogout
  | CmdFetch
  | CmdDevices (verbose debug : bool)
  | CmdSensor (s : Sensor) (device : option string) (debug : bool)
  | CmdTimeline (limit : option OptionValue) (debug : bool).

Definition action (h : Host) (api : Remote) (req : Client) (cmd : Command) : M unit :=
  match cmd with
  | CmdAuth client_id username password => auth api client_id username password
  | CmdLogout => conf_clear
  | CmdFetch => checkAuth ;; fetchDevices api
  | CmdDevices verbose debug => devices_action h api req verbose debug
  | CmdSensor s device debug => sensor_action api req s device debug
  | CmdTimeline limit debug => timeline_action h api req limit debug
  end.

(** One run of the program on a store: the way it ends, the store it
    leaves, and what happened on the way. *)
Definition run (h : Host) (api : Remote) (cmd : Command) (conf : Config)
    : Completion unit * Config * list Event :=
  action h api (create_req conf) cmd conf.

(** The commands that call [checkAuth] first. *)
Definition authenticated (cmd : Command) : bool :=
  match cmd with
  | CmdAuth _ _ _ | CmdLogout => false
  | _ => true
  end.

Definition completion_of {A} (r : Completion A * Config * list Event) : Completion A :=
  fst (fst r).
Definition conf_of {A} (r : Completion A * Config * list Event) : Config :=
  snd (fst r).
Definition trace_of {A} (r : Completion A * Config * list Event) : list Event :=
  snd r.

Definition is_request (e : Event) : bool :=
  match e with
  | Get _ => true
  | _ => false
  end.

Definition is_unhandled (e : Event) : bool :=
  match e with
  | UnhandledRejection _ => true
  | _ => false
  end.

(** The lines a trace printed. *)
Fixpoint printed (t : list Event) : list Text :=
  match t with
  | [] => []
  | Log x :: t' => x :: printed t'
  | _ :: t' => printed t'
  end.

(** A host to run examples on ASCII text with. *)
Definition ascii_host : Host :=
  mkHost (fun s => s) (fun _ => []) (fun s => s) (fun _ => NaN).

(** A remote API that answers every request the same way. *)
Definition constant_api (a : Response AuthBody) (d : Response (list RemoteDevice))
    (v : Response (list SensorSample)) (e : Response (list TimelineEvent)) : Remote :=
  mkRemoteApi (fun _ => a) (fun _ => d) (fun _ => v) (fun _ => e).

(* ================================================================== *)
(** * Vocabulary of the properties *)

(** Code that only leaves events: it ends normally and keeps the store. *)
Definition leaves (m : M unit) (t : list Event) : Prop :=
  forall c, m c = (Normal tt, c, t).

(** The requests the program sends. *)
Definition token_request (client_id username password : string) : Request :=
  mkRequest "/auth/token"
    [("client_id", PString client_id); ("grant_type", PString "password");
     ("username", PString username); ("password", PString password)]
    None.

Definition devices_request (token : option string) : Request :=
  mkRequest "/devices" [] (Some ("Bearer " ++ template token)).

(** The record cached for an entry of the device response. *)
Definition to_record (n : RemoteDevice) : DeviceRecord :=
  mkDevice (device_id n) (description n).

(** Pieces of the traces. *)
Definition name_line (n : RemoteDevice) : list Event :=
  [Log (Lit ("Name: " ++ description n))].

Definition sensor_request (conf : Config) (point : DeviceRecord) (s : Sensor) : Request :=
  mkRequest ("/devices/" ++ id point ++ "/" ++ sensor_endpoint s) []
    (Some ("Bearer " ++ template (token conf))).

Definition inspected (debug : bool) (b : Body) : list Event :=
  if debug then [Inspected b] else [].

Definition point_line (point : DeviceRecord) : Event :=
  Log (Lit "Point: " +++ Styled green (Lit (name point))).

(** Decimal digits at a fixed width. *)
Definition digit (k : nat) : ascii := ascii_of_nat (48 + k).

Definition two_digits (n : nat) : string :=
  String (digit (n / 10)) (String (digit (n mod 10)) EmptyString).

Definition four_digits (n : nat) : string :=
  two_digits (n / 100) ++ two_digits (n mod 100).

(** The layout [HH:MM DD/MM/YYYY], every field at its full width. *)
Definition HH_MM_DD_MM_YYYY (hh mi day mon year : nat) : string :=
  two_digits hh ++ ":" ++ two_digits mi ++ " "
  ++ two_digits day ++ "/" ++ two_digits mon ++ "/" ++ four_digits year.

(** A date of the calendar with a year of four digits, months counted from
    0 as [getMonth] does. *)
Definition calendar (d : Date) : bool :=
  ((hours d <? 24) && (minutes d <? 60) && (date d <=? 31) && (month d <? 12)
   && (1000 <=? fullYear d) && (fullYear d <? 10000))%nat.

(** What the loop of [devices] prints for one entry of the response. *)
Definition device_lines (h : Host) (verbose : bool) (res : list RemoteDevice)
    (device : RemoteDevice) : list Event :=
  ([Log (Lit "Name: " +++ Styled green (Lit (description device)));
    Log (Lit "ID: " +++ Styled green (Lit (device_id device)))]
   ++ (if verbose
       then [Log (Lit "Online: " +++ Styled green (Lit (tick (negb (offline device)))));
             Log (Lit "Active: " +++ Styled green (Lit (tick (active device))));
             Log (Lit "Last seen: "
                  +++ Styled green (Lit (formatDate (last_heard_from_at device))))]
       else [])
   ++ (if Array_gt_1 h res then [Log (Lit newline)] else []))%list.

(** What the loop of [timeline] prints for one event. *)
Definition device_label (event : TimelineEvent) : list Event :=
  match text_params event with
  | [] => []
  | param :: _ => [Log (Lit "Device: " +++ Styled green (Lit (param_value param)))]
  end.

Definition event_lines (h : Host) (event : TimelineEvent) : list Event :=
  ([Log (Styled green (Lit "↓"));
    Log (Lit "Date:   " +++ Styled green (Lit (formatDate (created_at event))))]
   ++ device_label event
   ++ [Log (Lit "Event:  " +++ Styled green (Lit (timelinePrettier h (type event))))])%list.

Definition events_request (conf : Config) (limit : ParamValue) : Request :=
  mkRequest "/events" [("order", PString "desc"); ("limit", limit)]
    (Some ("Bearer " ++ template (token conf))).

(** A word of lowercase letters, at least one. *)
Definition lower_word (w : string) : bool :=
  match w with
  | EmptyString => false
  | String _ _ => forall_chars isLower w
  end.

(** A word with its first letter in upper case. *)
Definition capitalized (w : string) : string :=
  match w with
  | EmptyString => EmptyString
  | String c rest => String (toUpperCase c) rest
  end.

Definition lower_or_space (c : ascii) : bool := isLower c || isSpace c.

Definition double_19_8 : Double := SpecFloat.S754_finite false 0x13CCCCCCCCCCCD (-48).

(** The API answers the device, sensor and event requests with the
    non-success response [e]. *)
Definition rejects (api : Remote) (e : ErrorBody) : Prop :=
  (forall r, all_devices api r = Rejected e)
  /\ (forall r, sensor_values api r = Rejected e)
  /\ (forall r, events api r = Rejected e).

(** A run recovered from the rejection [e]: a line with the message of the
    response was printed, the store is the one the run started with, the
    run ended normally and left no rejection unhandled. *)
Definition recovered_locally (r : Completion unit * Config * list Event)
    (conf : Config) (e : ErrorBody) : Prop :=
  (exists c, In (Styled c (Lit (message e))) (printed (trace_of r)))
  /\ conf_of r = conf
  /\ completion_of r = Normal tt
  /\ existsb is_unhandled (trace_of r) = false.

(** The events of a trace that print. *)
Definition is_output (e : Event) : bool :=
  match e with
  | Log _ | Inspected _ => true
  | _ => false
  end.

(** What a trace did besides printing: its requests, its writes to the
    store and the rejections nobody handled, in their order. *)
Definition effects (t : list Event) : list Event :=
  filter (fun e => negb (is_output e)) t.

Definition is_write (e : Event) : bool :=
  match e with
  | SetToken _ | SetDevices _ | Clear => true
  | _ => false
  end.

(** The commands that only read the store. *)
Definition reads_only (cmd : Command) : bool :=
  match cmd with
  | CmdDevices _ _ | CmdSensor _ _ _ | CmdTimeline _ _ => true
  | _ => false
  end.

(** The effects of a device refresh started with the token [tok]. *)
Definition refresh_effects (api : Remote) (tok : option string) : list Event :=
  Get (devices_request tok)
  :: match all_devices api (devices_request tok) with
     | Resolved l => [SetDevices (map to_record l)]
     | Rejected _ => [UnhandledRejection (TypeError "message")]
     end.

(** The effects of a command that passed [checkAuth]. *)
Definition authenticated_effects (api : Remote) (cmd : Command) (conf : Config) : list Event :=
  match cmd with
  | CmdFetch => refresh_effects api (token conf)
  | CmdDevices _ _ =>
      Get (devices_request (token conf))
      :: match all_devices api (devices_request (token conf)) with
         | Resolved _ => []
         | Rejected e => [UnhandledRejection (HttpError e)]
         end
  | CmdSensor s device _ =>
      match getDevice conf device with
      | None => []
      | Some point =>
          Get (sensor_request conf point s)
          :: match sensor_values api (sensor_request conf point s) with
             | Rejected e => [UnhandledRejection (HttpError e)]
             | Resolved res =>
                 match Lodash.last res with
                 | None => [UnhandledRejection (TypeError "value")]
                 | Some _ => []
                 end
             end
      end
  | CmdTimeline limit _ =>
      Get (events_request conf (limit_param limit))
      :: match events api (events_request conf (limit_param limit)) with
         | Resolved _ => []
         | Rejected e => [UnhandledRejection (HttpError e)]
         end
  | _ => []
  end.

(** The effects of a command on a store. *)
Definition command_effects (api : Remote) (cmd : Command) (conf : Config) : list Event :=
  match cmd with
  | CmdAuth client_id username password =>
      Get (token_request client_id username password)
      :: match auth_token api (token_request client_id username password) with
         | Resolved res => SetToken (access_token res) :: refresh_effects api (access_token res)
         | Rejected _ => [UnhandledRejection (TypeError "message")]
         end
  | CmdLogout => [Clear]
  | _ => if truthy (token conf) then authenticated_effects api cmd conf else []
  end.

Definition lower_or_colon (c : ascii) : bool := isLower c || Ascii.eqb c ":".

(* ================================================================== *)
(** * Properties *)

(** ** Running effectful code *)

Lemma leaves_ret : leaves (ret tt) [].
Proof. intro c. reflexivity. Qed.

Lemma leaves_emit (e : Event) : leaves (emit e) [e].
Proof. intro c. reflexivity. Qed.

Lemma leaves_console_log (x : Text) : leaves (console_log x) [Log x].
Proof. apply leaves_emit. Qed.

Lemma leaves_bind (m k : M unit) (t1 t2 : list Event) :
  leaves m t1 -> leaves k t2 -> leaves (m ;; k) (t1 ++ t2)%list.
Proof.
  intros Hm Hk c. unfold bind. rewrite Hm, Hk. reflexivity.
Qed.

Lemma leaves_when (b : bool) (m : M unit) (t : list Event) :
  leaves m t -> leaves (when b m) (if b then t else []).
Proof.
  intros Hm. destruct b; [exact Hm | apply leaves_ret].
Qed.

Lemma leaves_for_of {A} (l : list A) (body : A -> M unit) (lines : A -> list Event) :
  (forall x, leaves (body x) (lines x)) ->
  leaves (for_of l body) (flat_map lines l).
Proof.
  intros Hbody. induction l as [|x l IH]; simpl.
  - apply leaves_ret.
  - apply leaves_bind; [apply Hbody | exact IH].
Qed.

Lemma mapM_pure {A B} (f : A -> M B) (g : A -> B) (lines : A -> list Event) (l : list A) (c : Config) :
  (forall x c', f x c' = (Normal (g x), c', lines x)) ->
  mapM f l c = (Normal (map g l), c, flat_map lines l).
Proof.
  intros Hf. induction l as [|x l IH]; simpl.
  - reflexivity.
  - unfold bind at 1. rewrite Hf. unfold bind at 1. rewrite IH.
    unfold ret. rewrite app_nil_r. reflexivity.
Qed.

(** ** [checkAuth] *)

Lemma checkAuth_token (conf : Config) :
  truthy (token conf) = true -> checkAuth conf = (Normal true, conf, []).
Proof.
  intros H. unfold checkAuth, bind, get_conf, Configstore.get_token. rewrite H. reflexivity.
Qed.

Lemma checkAuth_no_token (conf : Config) :
  truthy (token conf) = false -> checkAuth conf = (Exit 1, conf, [Log guidance]).
Proof.
  intros H. unfold checkAuth, bind, get_conf, Configstore.get_token. rewrite H. reflexivity.
Qed.

(** ** Lists *)

Lemma find_first_match {A} (p : A -> bool) (pre post : list A) (d : A) :
  (forall x, In x pre -> p x = false) -> p d = true ->
  Lodash.find p (pre ++ d :: post)%list = Some d.
Proof.
  intros Hpre Hd. induction pre as [|x pre IH]; simpl.
  - rewrite Hd. reflexivity.
  - rewrite (Hpre x (or_introl eq_refl)). apply IH.
    intros y Hy. apply Hpre. right. exact Hy.
Qed.

Lemma find_no_match {A} (p : A -> bool) (l : list A) :
  (forall x, In x l -> p x = false) -> Lodash.find p l = None.
Proof.
  intros Hl. induction l as [|x l IH]; simpl.
  - reflexivity.
  - rewrite (Hl x (or_introl eq_refl)). apply IH.
    intros y Hy. apply Hl. right. exact Hy.
Qed.

Lemma first_hd_error {A} (l : list A) : Lodash.first l = hd_error l.
Proof. destruct l; reflexivity. Qed.


(** C1: on a cached device list, [getDevice] with a name returns the first
    record, in list order, whose name is that very string; when no record
    has the name, or no name is given, it returns the head of the list. *)
Theorem getDevice_resolves (conf : Config) (devs : list DeviceRecord) :
  Configstore.get_devices conf = Some devs ->
  (forall n pre d post,
      devs = (pre ++ d :: post)%list -> name d = n ->
      (forall x, In x pre -> name x <> n) ->
      getDevice conf (Some n) = Some d)
  /\ (forall n, (forall x, In x devs -> name x <> n) ->
                getDevice conf (Some n) = hd_error devs)
  /\ getDevice conf None = hd_error devs.
Proof.
  intros Hconf. unfold getDevice. rewrite Hconf. simpl elements.
  split; [|split].
  - intros n pre d post -> Hd Hpre.
    rewrite find_first_match; [reflexivity| |].
    + intros x Hx. simpl. apply String.eqb_neq. apply Hpre. exact Hx.
    + simpl. apply String.eqb_eq. exact Hd.
  - intros n Hn. rewrite find_no_match.
    + simpl. apply first_hd_error.
    + intros x Hx. simpl. apply String.eqb_neq. apply Hn. exact Hx.
  - rewrite find_no_match by reflexivity. simpl. apply first_hd_error.
Qed.

Lemma getDevice_resolves_witness :
  let devs := [mkDevice "a1" "Hall"; mkDevice "b2" "Kitchen"; mkDevice "c3" "Kitchen"] in
  let conf := mkConfig (Some "t") (Some devs) in
  getDevice conf (Some "Kitchen") = Some (mkDevice "b2" "Kitchen")
  /\ getDevice conf (Some "kitchen") = Some (mkDevice "a1" "Hall")
  /\ getDevice conf None = Some (mkDevice "a1" "Hall").
Proof.
  intros devs conf.
  destruct (getDevice_resolves conf devs eq_refl) as (Hfound & Hnone & Hdefault).
  split; [|split].
  - apply (Hfound "Kitchen" [mkDevice "a1" "Hall"] (mkDevice "b2" "Kitchen")
             [mkDevice "c3" "Kitchen"]); [reflexivity | reflexivity |].
    intros x [<- | []]. discriminate.
  - apply (Hnone "kitchen").
    intros x [<- | [<- | [<- | []]]]; discriminate.
  - exact Hdefault.
Defined.

(** ** Authentication state *)

Lemma no_token_exits_run (h : Host) (api : Remote) (cmd : Command) (c : Config) :
  authenticated cmd = true ->
  truthy (token c) = false ->
  run h api cmd c = (Exit 1, c, [Log guidance]).
Proof.
  intros Hcmd Htok.
  destruct cmd; try discriminate Hcmd;
    unfold run, action, devices_action, sensor_action, timeline_action;
    unfold bind at 1; rewrite (checkAuth_no_token c Htok); reflexivity.
Qed.

(** C6: after [clear] the store holds no token, and every command other
    than [auth] and [logout], run on a store without a token, prints the
    guidance line and ends in [process.exit(1)]; nothing else happens: no
    request goes out and the store is as it was. *)
Theorem no_token_exits (h : Host) (api : Remote) (conf : Config) :
  Configstore.get_token (Configstore.clear conf) = None
  /\ run h api CmdLogout conf = (Normal tt, Configstore.clear conf, [Clear])
  /\ (forall cmd c,
        authenticated cmd = true ->
        truthy (Configstore.get_token c) = false ->
        run h api cmd c = (Exit 1, c, [Log guidance])
        /\ existsb is_request (trace_of (run h api cmd c)) = false).
Proof.
  split; [reflexivity | split; [reflexivity |]].
  intros cmd c Hcmd Htok.
  rewrite (no_token_exits_run h api cmd c Hcmd Htok). split; reflexivity.
Qed.

Lemma no_token_exits_witness :
  let conf := mkConfig (Some "t0") (Some [mkDevice "a1" "Hall"]) in
  run ascii_host (constant_api (Rejected (mkError "no")) (Resolved []) (Resolved []) (Resolved []))
      (CmdSensor temp (Some "Hall") false) (Configstore.clear conf)
  = (Exit 1, Configstore.clear conf, [Log guidance]).
Proof.
  intros conf.
  apply (no_token_exits ascii_host
           (constant_api (Rejected (mkError "no")) (Resolved []) (Resolved []) (Resolved []))
           conf).
  - reflexivity.
  - reflexivity.
Defined.

(** ** The auth flow *)

Lemma fetchDevices_run (api : Remote) (conf : Config) :
  fetchDevices api conf =
    match all_devices api (devices_request (token conf)) with
    | Resolved l =>
        (Normal tt, mkConfig (token conf) (Some (map to_record l)),
         [Log (Styled green (Lit "Fetching Points..."));
          Get (devices_request (token conf));
          Log (Lit ("Found " ++ string_of_nat (List.length l) ++ " Point"))]
         ++ flat_map name_line l ++ [SetDevices (map to_record l)])%list
    | Rejected _ =>
        (Normal tt, conf,
         [Log (Styled green (Lit "Fetching Points..."));
          Get (devices_request (token conf));
          UnhandledRejection (TypeError "message")])
    end.
Proof.
  unfold fetchDevices, devices_request, Configstore.get_token.
  unfold bind at 1. unfold get_conf at 1.
  unfold bind at 1. unfold console_log at 1, emit at 1.
  unfold detach, catch, axios_get.
  unfold bind at 1. unfold bind at 1. unfold emit at 1.
  destruct (all_devices api _) as [l | e].
  - unfold ret at 1. unfold bind at 1. unfold console_log at 1, emit at 1.
    unfold bind at 1.
    rewrite (mapM_pure _ to_record name_line).
    + reflexivity.
    + intros x c'. reflexivity.
  - reflexivity.
Qed.

Lemma auth_run (api : Remote) (client_id username password : string) (conf : Config) :
  auth api client_id username password conf =
    match auth_token api (token_request client_id username password) with
    | Resolved res =>
        let '(r, c, t) := fetchDevices api (mkConfig (access_token res) (devices conf)) in
        (r, c,
         [Get (token_request client_id username password);
          SetToken (access_token res);
          Log (Styled green (Lit "Access token generated and saved!"))] ++ t)%list
    | Rejected _ =>
        (Normal tt, conf,
         [Get (token_request client_id username password);
          UnhandledRejection (TypeError "message")])
    end.
Proof.
  unfold auth, token_request, detach, catch, axios_get.
  unfold bind at 1. unfold bind at 1. unfold emit at 1.
  destruct (auth_token api _) as [res | e].
  - unfold ret at 1. unfold bind at 1. unfold conf_set_token at 1.
    unfold bind at 1. unfold console_log at 1, emit at 1.
    unfold Configstore.set_token.
    rewrite fetchDevices_run. simpl token.
    destruct (all_devices api _); reflexivity.
  - reflexivity.
Qed.

(** C7: when the device request succeeds, [fetchDevices] stores the
    records [{id: device_id, name: description}] of the entries, in the
    order of the response, in place of whatever list was cached, and
    leaves the token alone; when the request is rejected the store is as
    before. *)
Theorem fetchDevices_overwrites (api : Remote) (conf : Config) :
  match all_devices api (devices_request (Configstore.get_token conf)) with
  | Resolved l =>
      Configstore.get_devices (conf_of (fetchDevices api conf))
      = Some (map (fun n => mkDevice (device_id n) (description n)) l)
      /\ Configstore.get_token (conf_of (fetchDevices api conf)) = Configstore.get_token conf
      /\ completion_of (fetchDevices api conf) = Normal tt
  | Rejected _ =>
      conf_of (fetchDevices api conf) = conf
      /\ completion_of (fetchDevices api conf) = Normal tt
  end.
Proof.
  rewrite fetchDevices_run. unfold Configstore.get_token.
  destruct (all_devices api _) as [l | e]; repeat split.
Qed.

(** C4: when the token request succeeds with an [access_token], the run
    of [auth] writes the token to the store, prints the success line, and
    only then starts the device refresh, whose request already carries the
    new token, whatever the device endpoint will answer; the token is
    still in the store at the end, also when the refresh is rejected,
    which leaves the cached devices as they were. *)
Theorem auth_stores_token_then_refreshes (h : Host) (api : Remote)
    (client_id username password tok : string) (conf : Config) :
  auth_token api (token_request client_id username password) = Resolved (mkAuth (Some tok)) ->
  exists rest,
    trace_of (run h api (CmdAuth client_id username password) conf)
    = (Get (token_request client_id username password)
       :: SetToken (Some tok)
       :: Log (Styled green (Lit "Access token generated and saved!"))
       :: Log (Styled green (Lit "Fetching Points..."))
       :: Get (devices_request (Some tok))
       :: rest)
    /\ completion_of (run h api (CmdAuth client_id username password) conf) = Normal tt
    /\ Configstore.get_token (conf_of (run h api (CmdAuth client_id username password) conf))
       = Some tok
    /\ match all_devices api (devices_request (Some tok)) with
       | Resolved l =>
           Configstore.get_devices (conf_of (run h api (CmdAuth client_id username password) conf))
           = Some (map to_record l)
       | Rejected _ =>
           Configstore.get_devices (conf_of (run h api (CmdAuth client_id username password) conf))
           = Configstore.get_devices conf
       end.
Proof.
  intros Hauth. unfold run, action. rewrite auth_run, Hauth. simpl access_token.
  rewrite fetchDevices_run. simpl token.
  destruct (all_devices api _) as [l | e]; eexists; repeat split.
Qed.

Lemma auth_stores_token_then_refreshes_witness :
  let api := constant_api (Resolved (mkAuth (Some "new"))) (Rejected (mkError "Forbidden"))
               (Resolved []) (Resolved []) in
  let conf := mkConfig (Some "old") (Some [mkDevice "a1" "Hall"]) in
  exists rest,
    trace_of (run ascii_host api (CmdAuth "id" "me" "pw") conf)
    = (Get (token_request "id" "me" "pw")
       :: SetToken (Some "new")
       :: Log (Styled green (Lit "Access token generated and saved!"))
       :: Log (Styled green (Lit "Fetching Points..."))
       :: Get (devices_request (Some "new"))
       :: rest)
    /\ Configstore.get_token (conf_of (run ascii_host api (CmdAuth "id" "me" "pw") conf))
       = Some "new".
Proof.
  intros api conf.
  destruct (auth_stores_token_then_refreshes ascii_host api "id" "me" "pw" "new" conf eq_refl)
    as (rest & Htrace & _ & Htoken & _).
  exists rest. split; [exact Htrace | exact Htoken].
Defined.

(** C5, at a rejected token request: the handler of [auth] reads
    [res.data.message] off the error, throws, and the message of the
    response is never printed; the store, with the token it held, is as
    before and the run does not end in [process.exit]. *)
Lemma auth_failure_not_surfaced :
  let api := constant_api (Rejected (mkError "Invalid password")) (Resolved [])
               (Resolved []) (Resolved []) in
  let conf := mkConfig (Some "old") (Some [mkDevice "a1" "Hall"]) in
  run ascii_host api (CmdAuth "id" "me" "bad") conf
  = (Normal tt, conf,
     [Get (token_request "id" "me" "bad"); UnhandledRejection (TypeError "message")])
  /\ printed (trace_of (run ascii_host api (CmdAuth "id" "me" "bad") conf)) = [].
Proof.
  intros api conf. split; reflexivity.
Qed.

(** ** Sensor commands *)

Lemma sensor_run (h : Host) (api : Remote) (s : Sensor) (device : option string)
    (debug : bool) (conf : Config) :
  truthy (token conf) = true ->
  run h api (CmdSensor s device debug) conf =
    match getDevice conf device with
    | None => (Throw (TypeError "name"), conf, [])
    | Some point =>
        match sensor_values api (sensor_request conf point s) with
        | Rejected e =>
            (Normal tt, conf,
             [point_line point; Get (sensor_request conf point s);
              UnhandledRejection (HttpError e)])
        | Resolved res =>
            match Lodash.last res with
            | None =>
                (Normal tt, conf,
                 [point_line point; Get (sensor_request conf point s)]
                 ++ inspected debug (ValuesBody res)
                 ++ [UnhandledRejection (TypeError "value")])%list
            | Some newest =>
                (Normal tt, conf,
                 [point_line point; Get (sensor_request conf point s)]
                 ++ inspected debug (ValuesBody res)
                 ++ [Log (Lit (sensor_label s) +++ Styled green (sensor_value s newest));
                     Log (Lit "Time: "
                          +++ Styled green (Lit (formatDate (datetime newest))))])%list
            end
        end
    end.
Proof.
  intros Htok. unfold run, action, sensor_action, sensor_request, create_req, req_get.
  unfold Configstore.get_token. cbn [headers_Authorization].
  unfold bind at 1. rewrite (checkAuth_token conf Htok).
  unfold bind at 1. unfold get_conf at 1.
  destruct (getDevice conf device) as [point|]; [|reflexivity].
  unfold bind at 1. unfold console_log at 1, emit at 1.
  unfold detach, axios_get.
  unfold bind at 1. unfold bind at 1. unfold emit at 1.
  destruct (sensor_values api _) as [res | e]; [|reflexivity].
  unfold ret at 1. unfold bind at 1.
  unfold debug_inspect, when, inspected.
  destruct debug; (destruct (Lodash.last res) as [newest|]; reflexivity).
Qed.

Lemma pad_two (n : nat) : n < 100 -> Dateformat.pad n 2 = two_digits n.
Proof.
  intros Hn.
  assert (Hall : forallb (fun k => String.eqb (Dateformat.pad k 2) (two_digits k)) (seq 0 100)
                 = true) by (vm_compute; reflexivity).
  rewrite forallb_forall in Hall.
  apply String.eqb_eq, Hall, in_seq. lia.
Qed.

Lemma year_four (n : nat) : 1000 <= n -> n < 10000 -> string_of_nat n = four_digits n.
Proof.
  intros Hlo Hhi.
  assert (Hall : forallb (fun k => String.eqb (string_of_nat k) (four_digits k)) (seq 1000 9000)
                 = true) by (vm_compute; reflexivity).
  rewrite forallb_forall in Hall.
  apply String.eqb_eq, Hall, in_seq.
  split; [exact Hlo|]. apply (Nat.lt_le_trans _ _ _ Hhi).
  apply Nat.leb_le. vm_compute. reflexivity.
Qed.

Lemma formatDate_layout (d : Date) :
  calendar d = true ->
  formatDate d
  = HH_MM_DD_MM_YYYY (hours d) (minutes d) (date d) (month d + 1) (fullYear d).
Proof.
  unfold calendar. rewrite !andb_true_iff, !Nat.ltb_lt, !Nat.leb_le.
  intros (((((Hh & Hm) & Hd) & Hmo) & Hy) & Hy').
  unfold formatDate, Dateformat.dateFormat_HH_MM_dd_mm_yyyy, HH_MM_DD_MM_YYYY.
  unfold Dateformat.HH, Dateformat.MM, Dateformat.dd, Dateformat.mm, Dateformat.yyyy.
  rewrite !pad_two by lia. rewrite (year_four _ Hy Hy'). reflexivity.
Qed.



(** ** The [devices] and [timeline] commands *)

Lemma devices_run (h : Host) (api : Remote) (verbose debug : bool) (conf : Config) :
  truthy (token conf) = true ->
  run h api (CmdDevices verbose debug) conf =
    match all_devices api (devices_request (token conf)) with
    | Rejected e =>
        (Normal tt, conf,
         [Get (devices_request (token conf)); UnhandledRejection (HttpError e)])
    | Resolved res =>
        (Normal tt, conf,
         Get (devices_request (token conf))
         :: inspected debug (DevicesBody res) ++ flat_map (device_lines h verbose res) res)%list
    end.
Proof.
  intros Htok. unfold run, action, devices_action, devices_request, create_req, req_get.
  unfold Configstore.get_token. cbn [headers_Authorization].
  unfold bind at 1. rewrite (checkAuth_token conf Htok).
  unfold detach, axios_get.
  unfold bind at 1. unfold bind at 1. unfold emit at 1.
  destruct (all_devices api _) as [res | e]; [|reflexivity].
  unfold ret at 1.
  assert (Hbody : leaves
            (debug_inspect debug (DevicesBody res) ;;
             for_of res (fun device =>
               console_log (Lit "Name: " +++ Styled green (Lit (description device))) ;;
               console_log (Lit "ID: " +++ Styled green (Lit (device_id device))) ;;
               when verbose
                 (console_log (Lit "Online: "
                               +++ Styled green (Lit (tick (negb (offline device))))) ;;
                  console_log (Lit "Active: " +++ Styled green (Lit (tick (active device)))) ;;
                  console_log (Lit "Last seen: "
                               +++ Styled green (Lit (formatDate (last_heard_from_at device))))) ;;
               when (Array_gt_1 h res) (console_log (Lit newline))))
            (inspected debug (DevicesBody res) ++ flat_map (device_lines h verbose res) res)%list).
  { apply leaves_bind.
    - unfold debug_inspect, inspected. apply (leaves_when debug _ [Inspected (DevicesBody res)]).
      apply leaves_emit.
    - apply leaves_for_of. intros device. unfold device_lines.
      apply (leaves_bind _ _ [_] (_ :: _)); [apply leaves_console_log|].
      apply (leaves_bind _ _ [_]); [apply leaves_console_log|].
      apply leaves_bind.
      + apply (leaves_when verbose _ [_; _; _]).
        apply (leaves_bind _ _ [_] [_; _]); [apply leaves_console_log|].
        apply (leaves_bind _ _ [_] [_]); apply leaves_console_log.
      + apply (leaves_when _ _ [_]). apply leaves_console_log. }
  rewrite Hbody. reflexivity.
Qed.

Lemma render_event_leaves (h : Host) (event : TimelineEvent) :
  leaves (render_event h event) (event_lines h event).
Proof.
  unfold render_event, event_lines.
  apply (leaves_bind _ _ [_] (_ :: _)); [apply leaves_console_log|].
  apply (leaves_bind _ _ [_]); [apply leaves_console_log|].
  apply leaves_bind; [|apply leaves_console_log].
  unfold device_label. destruct (text_params event) as [|param rest].
  - apply leaves_ret.
  - simpl firstn. simpl for_of.
    apply (leaves_bind _ _ [_] []); [apply leaves_console_log | apply leaves_ret].
Qed.

Lemma timeline_run (h : Host) (api : Remote) (limit : option OptionValue) (debug : bool)
    (conf : Config) :
  truthy (token conf) = true ->
  run h api (CmdTimeline limit debug) conf =
    match events api (events_request conf (limit_param limit)) with
    | Rejected e =>
        (Normal tt, conf,
         [Get (events_request conf (limit_param limit)); UnhandledRejection (HttpError e)])
    | Resolved timeline =>
        (Normal tt, conf,
         Get (events_request conf (limit_param limit))
         :: inspected debug (EventsBody timeline)
         ++ Log (Styled green (Lit "→ Present"))
         :: flat_map (event_lines h) timeline
         ++ [Log (Styled green (Lit "→ Past"))])%list
    end.
Proof.
  intros Htok. unfold run, action, timeline_action, events_request, create_req, req_get.
  unfold Configstore.get_token. cbn [headers_Authorization].
  unfold bind at 1. rewrite (checkAuth_token conf Htok).
  unfold detach, axios_get.
  unfold bind at 1. unfold bind at 1. unfold emit at 1.
  destruct (events api _) as [timeline | e]; [|reflexivity].
  unfold ret at 1.
  assert (Hbody : leaves
            (debug_inspect debug (EventsBody timeline) ;;
             console_log (Styled green (Lit "→ Present")) ;;
             for_of timeline (render_event h) ;;
             console_log (Styled green (Lit "→ Past")))
            (inspected debug (EventsBody timeline)
             ++ Log (Styled green (Lit "→ Present"))
             :: flat_map (event_lines h) timeline
             ++ [Log (Styled green (Lit "→ Past"))])%list).
  { apply leaves_bind.
    - unfold debug_inspect, inspected. apply (leaves_when debug _ [Inspected (EventsBody timeline)]).
      apply leaves_emit.
    - apply (leaves_bind _ _ [_]); [apply leaves_console_log|].
      apply leaves_bind; [|apply leaves_console_log].
      apply leaves_for_of. apply render_event_leaves. }
  rewrite Hbody. reflexivity.
Qed.

(** ** Text *)

Lemma lower_char (c : ascii) :
  isLower c = true ->
  isUpper c = false /\ isDigit c = false /\ isSpace c = false /\ isAscii c = true
  /\ Lodash.isAsciiWordChar c = true /\ Ascii.eqb c ":" = false /\ Ascii.eqb c "'" = false.
Proof.
  destruct c as [[] [] [] [] [] [] [] []]; vm_compute; intros H;
    try discriminate H; repeat split.
Qed.

Lemma space_char (c : ascii) :
  isSpace c = true ->
  isUpper c = false /\ isDigit c = false /\ isLower c = false /\ isAscii c = true
  /\ Lodash.isAsciiWordChar c = false /\ Ascii.eqb c "'" = false.
Proof.
  destruct c as [[] [] [] [] [] [] [] []]; vm_compute; intros H;
    try discriminate H; repeat split.
Qed.

Lemma lower_or_space_char (c : ascii) :
  lower_or_space c = true ->
  isUpper c = false /\ isDigit c = false /\ isAscii c = true /\ Ascii.eqb c "'" = false
  /\ isAlnum c || isSpace c = true.
Proof.
  unfold lower_or_space, isAlnum, isAlpha. intros H.
  apply orb_true_iff in H. destruct H as [H | H].
  - destruct (lower_char c H) as (? & ? & ? & ? & ? & ? & ?). rewrite H. repeat split; assumption.
  - destruct (space_char c H) as (? & ? & ? & ? & ? & ?). rewrite H.
    repeat split; try assumption. apply orb_true_r.
Qed.

Lemma append_assoc (a b c : string) : (a ++ b) ++ c = a ++ (b ++ c).
Proof. induction a as [|x a IH]; simpl; [reflexivity | rewrite IH; reflexivity]. Qed.

Lemma append_empty_r (a : string) : a ++ "" = a.
Proof. induction a as [|x a IH]; simpl; [reflexivity | rewrite IH; reflexivity]. Qed.

Lemma forall_chars_app (p : ascii -> bool) (a b : string) :
  forall_chars p (a ++ b) = forall_chars p a && forall_chars p b.
Proof.
  induction a as [|x a IH]; simpl; [reflexivity|].
  rewrite IH. apply andb_assoc.
Qed.

Lemma forall_chars_weaken (p q : ascii -> bool) (s : string) :
  (forall c, p c = true -> q c = true) ->
  forall_chars p s = true -> forall_chars q s = true.
Proof.
  intros Hpq. induction s as [|x s IH]; simpl; [reflexivity|].
  intros H. apply andb_true_iff in H. destruct H as [Hx Hs].
  rewrite (Hpq x Hx), (IH Hs). reflexivity.
Qed.

Lemma map_chars_app (f : ascii -> ascii) (a b : string) :
  map_chars f (a ++ b) = map_chars f a ++ map_chars f b.
Proof.
  induction a as [|x a IH]; simpl; [reflexivity | rewrite IH; reflexivity].
Qed.

Lemma lower_word_chars (w : string) : lower_word w = true -> forall_chars isLower w = true.
Proof. destruct w; [discriminate | intros H; exact H]. Qed.

Lemma concat_cons2 (sep x y : string) (l : list string) :
  String.concat sep (x :: y :: l) = x ++ sep ++ String.concat sep (y :: l).
Proof. reflexivity. Qed.

Lemma replace_colons_lower (w : string) :
  forall_chars isLower w = true -> Lodash.replace_colons w = w.
Proof.
  unfold Lodash.replace_colons. induction w as [|c w IH]; simpl; [reflexivity|].
  intros H. apply andb_true_iff in H. destruct H as [Hc Hw].
  destruct (lower_char c Hc) as (_ & _ & _ & _ & _ & Hcolon & _).
  rewrite Hcolon, (IH Hw). reflexivity.
Qed.

Lemma replace_colons_app (a b : string) :
  Lodash.replace_colons (a ++ b) = Lodash.replace_colons a ++ Lodash.replace_colons b.
Proof. apply map_chars_app. Qed.

Lemma replace_colons_words (ws : list string) :
  forallb lower_word ws = true ->
  Lodash.replace_colons (String.concat ":" ws) = String.concat " " ws.
Proof.
  induction ws as [|w ws IH]; [reflexivity|].
  intros H. simpl forallb in H. apply andb_true_iff in H. destruct H as [Hw Hws].
  apply lower_word_chars in Hw.
  destruct ws as [|w' ws].
  - simpl. apply replace_colons_lower. exact Hw.
  - rewrite !concat_cons2, replace_colons_app, (replace_colons_lower w Hw).
    change (":" ++ String.concat ":" (w' :: ws))
      with (String ":"%char (String.concat ":" (w' :: ws))).
    change (Lodash.replace_colons (String ":"%char (String.concat ":" (w' :: ws))))
      with (String " "%char (Lodash.replace_colons (String.concat ":" (w' :: ws)))).
    rewrite (IH Hws). reflexivity.
Qed.

Lemma words_lower_or_space (ws : list string) :
  forallb lower_word ws = true ->
  forall_chars lower_or_space (String.concat " " ws) = true.
Proof.
  induction ws as [|w ws IH]; [reflexivity|].
  intros H. simpl forallb in H. apply andb_true_iff in H. destruct H as [Hw Hws].
  apply lower_word_chars in Hw.
  assert (Hw' : forall_chars lower_or_space w = true).
  { apply (forall_chars_weaken isLower); [|exact Hw].
    intros c Hc. unfold lower_or_space. rewrite Hc. reflexivity. }
  destruct ws as [|w' ws].
  - exact Hw'.
  - rewrite concat_cons2, forall_chars_app, Hw'. simpl. apply (IH Hws).
Qed.

Lemma deburr_unapos_plain (h : Host) (s : string) :
  forall_chars lower_or_space s = true -> Lodash.deburr_unapos h s = s.
Proof.
  intros Hs. unfold Lodash.deburr_unapos.
  rewrite (forall_chars_weaken lower_or_space isAscii s); [| |exact Hs].
  - induction s as [|c s IH]; simpl; [reflexivity|].
    simpl in Hs. apply andb_true_iff in Hs. destruct Hs as [Hc Hs].
    destruct (lower_or_space_char c Hc) as (_ & _ & _ & Hapos & _).
    rewrite Hapos, (IH Hs). reflexivity.
  - intros c Hc. apply (lower_or_space_char c Hc).
Qed.

Lemma hasUnicodeWord_plain (s : string) :
  forall_chars lower_or_space s = true -> Lodash.hasUnicodeWord s = false.
Proof.
  induction s as [|a s IH]; [reflexivity|].
  intros H. simpl in H. apply andb_true_iff in H. destruct H as [Ha Hs].
  destruct (lower_or_space_char a Ha) as (HUa & HDa & _ & _ & HAa).
  simpl. rewrite HAa, (IH Hs), HUa, HDa. simpl.
  destruct s as [|b s]; [reflexivity|].
  simpl in Hs. apply andb_true_iff in Hs. destruct Hs as [Hb _].
  destruct (lower_or_space_char b Hb) as (HUb & HDb & _ & _ & _).
  rewrite HUb, HDb. rewrite !andb_false_r. reflexivity.
Qed.

Lemma runs_app (p : ascii -> bool) (w cur rest : string) :
  forall_chars p w = true ->
  Lodash.runs p cur (w ++ rest) = Lodash.runs p (cur ++ w) rest.
Proof.
  revert cur. induction w as [|c w IH]; intros cur H.
  - rewrite append_empty_r. reflexivity.
  - simpl in H. apply andb_true_iff in H. destruct H as [Hc Hw].
    simpl. rewrite Hc, (IH _ Hw), append_assoc. reflexivity.
Qed.

Lemma runs_sep (p : ascii -> bool) (c : ascii) (cur s : string) :
  p c = false ->
  Lodash.runs p cur (String c s) = (Lodash.flush cur ++ Lodash.runs p "" s)%list.
Proof. intros H. simpl. rewrite H. reflexivity. Qed.

Lemma flush_lower_word (w : string) : lower_word w = true -> Lodash.flush w = [w].
Proof. destruct w; [discriminate | reflexivity]. Qed.

Lemma asciiWords_words (ws : list string) :
  forallb lower_word ws = true ->
  Lodash.asciiWords (String.concat " " ws) = ws.
Proof.
  unfold Lodash.asciiWords.
  induction ws as [|w ws IH]; [reflexivity|].
  intros H. simpl forallb in H. apply andb_true_iff in H. destruct H as [Hw Hws].
  assert (Hchars : forall_chars Lodash.isAsciiWordChar w = true).
  { apply (forall_chars_weaken isLower); [|apply lower_word_chars; exact Hw].
    intros c Hc. apply (lower_char c Hc). }
  destruct ws as [|w' ws].
  - simpl String.concat. rewrite <- (append_empty_r w) at 1.
    rewrite runs_app by exact Hchars. simpl. apply flush_lower_word. exact Hw.
  - rewrite concat_cons2, runs_app by exact Hchars.
    change (" " ++ String.concat " " (w' :: ws))
      with (String " "%char (String.concat " " (w' :: ws))).
    rewrite runs_sep by reflexivity.
    change ("" ++ w) with w.
    rewrite (flush_lower_word w Hw), (IH Hws). reflexivity.
Qed.

Lemma reduce_startCase_concat (h : Host) (ws : list string) (index : nat) (result : string) :
  Lodash.reduce_startCase h ws index result =
    match ws with
    | [] => result
    | _ :: _ =>
        result ++ (if (index =? 0)%nat then "" else " ")
        ++ String.concat " " (map (Lodash.upperFirst h) ws)
    end.
Proof.
  revert index result. induction ws as [|w ws IH]; intros index result; [reflexivity|].
  simpl Lodash.reduce_startCase. rewrite IH.
  destruct ws as [|w' ws].
  - reflexivity.
  - simpl map. rewrite concat_cons2. simpl Nat.eqb. rewrite !append_assoc. reflexivity.
Qed.

Lemma upperFirst_lower_words (h : Host) (ws : list string) :
  forallb lower_word ws = true ->
  map (Lodash.upperFirst h) ws = map capitalized ws.
Proof.
  induction ws as [|w ws IH]; [reflexivity|].
  intros H. simpl forallb in H. apply andb_true_iff in H. destruct H as [Hw Hws].
  simpl. rewrite (IH Hws). f_equal.
  destruct w as [|c rest]; [reflexivity|].
  simpl in Hw. apply andb_true_iff in Hw. destruct Hw as [Hc _].
  destruct (lower_char c Hc) as (_ & _ & _ & Hascii & _).
  simpl. rewrite Hascii. reflexivity.
Qed.

Lemma timelinePrettier_words (h : Host) (ws : list string) :
  forallb lower_word ws = true ->
  timelinePrettier h (String.concat ":" ws) = String.concat " " (map capitalized ws).
Proof.
  intros Hws. unfold timelinePrettier, Lodash.startCase, Lodash.words.
  rewrite (replace_colons_words ws Hws).
  rewrite (deburr_unapos_plain h _ (words_lower_or_space ws Hws)).
  rewrite (hasUnicodeWord_plain _ (words_lower_or_space ws Hws)).
  rewrite (asciiWords_words ws Hws), reduce_startCase_concat.
  rewrite (upperFirst_lower_words h ws Hws).
  destruct ws; reflexivity.
Qed.

Lemma Array_gt_1_false {A} (h : Host) (l : list A) : Array_gt_1 h l = false.
Proof.
  unfold Array_gt_1, Array_toString.
  destruct l as [|x [|y l]]; reflexivity.
Qed.

(** ** Sensor readings *)



(** C8: neither boundary case is checked.  On a store whose device list
    is empty or missing, [getDevice] returns [undefined], no message is
    printed and the sensor command fails reading [name] of it; on a
    response with no samples, [_.last] returns [undefined] and the handler
    fails reading [value] of it, a rejection nobody handles. *)
Theorem empty_cases_unguarded (h : Host) (api : Remote) (s : Sensor)
    (device : option string) (debug : bool) (conf : Config) :
  truthy (Configstore.get_token conf) = true ->
  (elements (Configstore.get_devices conf) = [] ->
   getDevice conf device = None
   /\ run h api (CmdSensor s device debug) conf = (Throw (TypeError "name"), conf, []))
  /\ (forall point,
        getDevice conf device = Some point ->
        sensor_values api (sensor_request conf point s) = Resolved [] ->
        Lodash.last (@nil SensorSample) = None
        /\ run h api (CmdSensor s device debug) conf
           = (Normal tt, conf,
              [point_line point; Get (sensor_request conf point s)]
              ++ inspected debug (ValuesBody [])
              ++ [UnhandledRejection (TypeError "value")])%list).
Proof.
  intros Htok. split.
  - intros Hempty.
    assert (Hnone : getDevice conf device = None).
    { unfold getDevice. rewrite Hempty. reflexivity. }
    split; [exact Hnone|].
    rewrite (sensor_run h api s device debug conf Htok), Hnone. reflexivity.
  - intros point Hpoint Hres. split; [reflexivity|].
    rewrite (sensor_run h api s device debug conf Htok), Hpoint, Hres. reflexivity.
Qed.

Lemma empty_cases_unguarded_witness :
  let api := constant_api (Rejected (mkError "no")) (Resolved []) (Resolved []) (Resolved []) in
  let point := mkDevice "a1" "Hall" in
  (getDevice (mkConfig (Some "t0") (Some [])) (Some "Hall") = None
   /\ run ascii_host api (CmdSensor humidity (Some "Hall") false) (mkConfig (Some "t0") (Some []))
      = (Throw (TypeError "name"), mkConfig (Some "t0") (Some []), []))
  /\ run ascii_host api (CmdSensor humidity (Some "Hall") false)
       (mkConfig (Some "t0") (Some [point]))
     = (Normal tt, mkConfig (Some "t0") (Some [point]),
        [point_line point;
         Get (sensor_request (mkConfig (Some "t0") (Some [point])) point humidity);
         UnhandledRejection (TypeError "value")]).
Proof.
  intros api point. split.
  - apply (empty_cases_unguarded ascii_host api humidity (Some "Hall") false
             (mkConfig (Some "t0") (Some []))); reflexivity.
  - apply (empty_cases_unguarded ascii_host api humidity (Some "Hall") false
             (mkConfig (Some "t0") (Some [point]))); reflexivity.
Defined.

(** ** Rejected requests *)

Lemma fetch_run (h : Host) (api : Remote) (conf : Config) :
  truthy (token conf) = true ->
  run h api CmdFetch conf = fetchDevices api conf.
Proof.
  intros Htok. unfold run, action. unfold bind at 1. rewrite (checkAuth_token conf Htok).
  destruct (fetchDevices api conf) as [[r c] t]. reflexivity.
Qed.

(** C3, at a rejected request with the message Unauthorized, a token and
    a device cached: [fetch] prints its first line only, its handler throws
    reading [res.data.message] and the rejection is left unhandled; [temp]
    has no handler, prints the device line only and leaves the rejection
    unhandled.  Neither run prints the message; both leave the store as it
    was. *)
Lemma rejection_not_recovered :
  let e := mkError "Unauthorized" in
  let api := constant_api (Rejected e) (Rejected e) (Rejected e) (Rejected e) in
  let conf := mkConfig (Some "t0") (Some [mkDevice "a1" "Hall"]) in
  rejects api e
  /\ run ascii_host api CmdFetch conf
     = (Normal tt, conf,
        [Log (Styled green (Lit "Fetching Points..."));
         Get (mkRequest "/devices" [] (Some "Bearer t0"));
         UnhandledRejection (TypeError "message")])
  /\ ~ recovered_locally (run ascii_host api CmdFetch conf) conf e
  /\ run ascii_host api (CmdSensor temp None false) conf
     = (Normal tt, conf,
        [Log (Lit "Point: " +++ Styled green (Lit "Hall"));
         Get (mkRequest "/devices/a1/temperature" [] (Some "Bearer t0"));
         UnhandledRejection (HttpError e)])
  /\ ~ recovered_locally (run ascii_host api (CmdSensor temp None false) conf) conf e.
Proof.
  intros e api conf. split; [repeat split|].
  split; [reflexivity|]. split.
  - intros (_ & _ & _ & Hunhandled). vm_compute in Hunhandled. discriminate Hunhandled.
  - split; [reflexivity|].
    intros (_ & _ & _ & Hunhandled). vm_compute in Hunhandled. discriminate Hunhandled.
Qed.

(** ** The timeline *)

(** C9: the [timeline] command asks for the events with [order=desc] and
    the limit given on the command line, 10 when there is none; it prints
    the Present marker, then for every event, in the order of the response,
    an arrow, the formatted [created_at], the value of the first entry of
    [text_params] when there is one, and the prettified type, then the Past
    marker.  The prettified type of lowercase words joined by colons is the
    words capitalized and joined by blanks. *)
Theorem timeline_rendering (h : Host) (api : Remote) (limit : option OptionValue)
    (debug : bool) (conf : Config) (timeline : list TimelineEvent) :
  truthy (Configstore.get_token conf) = true ->
  events api (events_request conf (limit_param limit)) = Resolved timeline ->
  run h api (CmdTimeline limit debug) conf
  = (Normal tt, conf,
     Get (mkRequest "/events" [("order", PString "desc"); ("limit", limit_param limit)]
            (Some ("Bearer " ++ template (Configstore.get_token conf))%string))
     :: inspected debug (EventsBody timeline)
     ++ Log (Styled green (Lit "→ Present"))
     :: flat_map
          (fun event =>
             [Log (Styled green (Lit "↓"));
              Log (Lit "Date:   " +++ Styled green (Lit (formatDate (created_at event))))]
             ++ match text_params event with
                | [] => []
                | param :: _ =>
                    [Log (Lit "Device: " +++ Styled green (Lit (param_value param)))]
                end
             ++ [Log (Lit "Event:  "
                      +++ Styled green (Lit (timelinePrettier h (type event))))])
          timeline
     ++ [Log (Styled green (Lit "→ Past"))])%list
  /\ limit_param None = PNumber 10
  /\ (forall n, n <> "" -> limit_param (Some (OptString n)) = PString n)
  /\ (forall ws, forallb lower_word ws = true ->
                 timelinePrettier h (String.concat ":" ws)
                 = String.concat " " (map capitalized ws))
  /\ timelinePrettier h "door:opened:remotely" = "Door Opened Remotely".
Proof.
  intros Htok Hres.
  split; [|split; [reflexivity | split; [|split]]].
  - rewrite (timeline_run h api limit debug conf Htok), Hres. reflexivity.
  - intros n Hn. simpl. apply String.eqb_neq in Hn. rewrite Hn. reflexivity.
  - apply timelinePrettier_words.
  - apply (timelinePrettier_words h ["door"; "opened"; "remotely"]). reflexivity.
Qed.

Lemma timeline_rendering_witness :
  let T := mkDate 2018 11 20 18 5 in
  let timeline := [mkEvent "door:opened:remotely" T [mkParam "Hall"; mkParam "x"];
                   mkEvent "alarm" T []] in
  let api := constant_api (Rejected (mkError "no")) (Resolved []) (Resolved [])
               (Resolved timeline) in
  let conf := mkConfig (Some "t0") None in
  run ascii_host api (CmdTimeline (Some (OptString "2")) false) conf
  = (Normal tt, conf,
     [Get (mkRequest "/events" [("order", PString "desc"); ("limit", PString "2")]
             (Some "Bearer t0"));
      Log (Styled green (Lit "→ Present"));
      Log (Styled green (Lit "↓"));
      Log (Lit "Date:   " +++ Styled green (Lit "18:05 20/12/2018"));
      Log (Lit "Device: " +++ Styled green (Lit "Hall"));
      Log (Lit "Event:  " +++ Styled green (Lit "Door Opened Remotely"));
      Log (Styled green (Lit "↓"));
      Log (Lit "Date:   " +++ Styled green (Lit "18:05 20/12/2018"));
      Log (Lit "Event:  " +++ Styled green (Lit "Alarm"));
      Log (Styled green (Lit "→ Past"))])
  /\ timelinePrettier ascii_host (String.concat ":" ["door"; "opened"])
     = String.concat " " (map capitalized ["door"; "opened"]).
Proof.
  intros T timeline api conf.
  destruct (timeline_rendering ascii_host api (Some (OptString "2")) false conf timeline
              eq_refl eq_refl) as (Hrun & _ & _ & Hwords & _).
  split.
  - exact Hrun.
  - apply (Hwords ["door"; "opened"]). reflexivity.
Defined.

(** ** The device list *)

(** C10: the guard [res.data.devices > 1] compares the array, not its
    length, with 1 and is false for every list of devices, so the run of
    [devices] never prints the separator line. *)
Theorem devices_never_prints_separator (h : Host) (api : Remote) (verbose debug : bool)
    (conf : Config) :
  (forall res : list RemoteDevice, Array_gt_1 h res = false)
  /\ ~ In (Log (Lit newline)) (trace_of (run h api (CmdDevices verbose debug) conf)).
Proof.
  split; [intros res; apply Array_gt_1_false|].
  destruct (truthy (token conf)) eqn:Htok.
  - rewrite (devices_run h api verbose debug conf Htok).
    destruct (all_devices api _) as [res | e].
    + simpl trace_of. intros [Hin | Hin]; [discriminate Hin|].
      apply in_app_or in Hin. destruct Hin as [Hin | Hin].
      * destruct debug; simpl in Hin; [destruct Hin as [Hin | []]; discriminate Hin | exact Hin].
      * apply in_flat_map in Hin. destruct Hin as (device & _ & Hin).
        unfold device_lines in Hin. rewrite Array_gt_1_false in Hin.
        rewrite app_nil_r in Hin.
        destruct Hin as [Hin | [Hin | Hin]]; try discriminate Hin.
        destruct verbose; simpl in Hin; [|exact Hin].
        destruct Hin as [Hin | [Hin | [Hin | []]]]; discriminate Hin.
    + simpl. intros [Hin | [Hin | []]]; discriminate Hin.
  - rewrite (no_token_exits_run h api (CmdDevices verbose debug) conf eq_refl Htok).
    simpl. intros [Hin | []]. discriminate Hin.
Qed.

(** ** What a run does besides printing *)

Lemma effects_app (a b : list Event) : effects (a ++ b)%list = (effects a ++ effects b)%list.
Proof. apply filter_app. Qed.

Lemma effects_outputs (t : list Event) :
  forallb is_output t = true -> effects t = [].
Proof.
  induction t as [|e t IH]; [reflexivity|].
  simpl. intros H. apply andb_true_iff in H. destruct H as [He Ht].
  rewrite He. simpl. apply IH. exact Ht.
Qed.

Lemma effects_flat_map {A} (lines : A -> list Event) (l : list A) :
  (forall x, forallb is_output (lines x) = true) -> effects (flat_map lines l) = [].
Proof.
  intros H. induction l as [|x l IH]; [reflexivity|].
  simpl. rewrite effects_app, IH, (effects_outputs _ (H x)). reflexivity.
Qed.

Lemma effects_inspected (debug : bool) (b : Body) : effects (inspected debug b) = [].
Proof. destruct debug; reflexivity. Qed.

Lemma device_lines_output (h : Host) (verbose : bool) (res : list RemoteDevice)
    (device : RemoteDevice) :
  forallb is_output (device_lines h verbose res device) = true.
Proof.
  unfold device_lines. destruct verbose, (Array_gt_1 h res); reflexivity.
Qed.

Lemma event_lines_output (h : Host) (event : TimelineEvent) :
  forallb is_output (event_lines h event) = true.
Proof.
  unfold event_lines, device_label. destruct (text_params event); reflexivity.
Qed.

Lemma fetchDevices_effects (api : Remote) (conf : Config) :
  effects (trace_of (fetchDevices api conf)) = refresh_effects api (token conf).
Proof.
  rewrite fetchDevices_run. unfold refresh_effects.
  destruct (all_devices api _) as [l | e]; [|reflexivity].
  unfold trace_of, snd. rewrite !effects_app.
  rewrite (effects_flat_map name_line l) by reflexivity. reflexivity.
Qed.

Lemma run_effects (h : Host) (api : Remote) (cmd : Command) (conf : Config) :
  effects (trace_of (run h api cmd conf)) = command_effects api cmd conf.
Proof.
  destruct cmd as [client_id username password| | |verbose debug|s device debug|limit debug].
  - unfold run, action. rewrite auth_run. unfold command_effects.
    destruct (auth_token api _) as [res | e]; [|reflexivity].
    pose proof (fetchDevices_effects api (mkConfig (access_token res) (devices conf))) as H.
    destruct (fetchDevices api _) as [[r c] t]. unfold trace_of, snd in *.
    rewrite effects_app, H. reflexivity.
  - reflexivity.
  - unfold command_effects. destruct (truthy (token conf)) eqn:Htok.
    + rewrite (fetch_run h api conf Htok). apply fetchDevices_effects.
    + rewrite (no_token_exits_run h api CmdFetch conf eq_refl Htok). reflexivity.
  - unfold command_effects. destruct (truthy (token conf)) eqn:Htok.
    + rewrite (devices_run h api verbose debug conf Htok). unfold authenticated_effects.
      destruct (all_devices api _) as [res | e]; [|reflexivity].
      unfold trace_of, snd. change (Get ?r :: ?t) with ([Get r] ++ t)%list.
      rewrite !effects_app, effects_inspected.
      rewrite (effects_flat_map _ res (device_lines_output h verbose res)). reflexivity.
    + rewrite no_token_exits_run by (reflexivity || exact Htok). reflexivity.
  - unfold command_effects. destruct (truthy (token conf)) eqn:Htok.
    + rewrite (sensor_run h api s device debug conf Htok). unfold authenticated_effects.
      destruct (getDevice conf device) as [point|]; [|reflexivity].
      destruct (sensor_values api _) as [res | e]; [|reflexivity].
      destruct (Lodash.last res); unfold trace_of, snd;
        rewrite !effects_app, effects_inspected; reflexivity.
    + rewrite no_token_exits_run by (reflexivity || exact Htok). reflexivity.
  - unfold command_effects. destruct (truthy (token conf)) eqn:Htok.
    + rewrite (timeline_run h api limit debug conf Htok). unfold authenticated_effects.
      destruct (events api _) as [timeline | e]; [|reflexivity].
      unfold trace_of, snd.
      change (Get ?r :: ?t) with ([Get r] ++ t)%list.
      rewrite !effects_app, effects_inspected.
      change (Log ?x :: ?t) with ([Log x] ++ t)%list.
      rewrite !effects_app.
      rewrite (effects_flat_map _ timeline (event_lines_output h)). reflexivity.
    + rewrite no_token_exits_run by (reflexivity || exact Htok). reflexivity.
Qed.

Lemma in_effects (e : Event) (t : list Event) :
  is_output e = false -> In e t -> In e (effects t).
Proof.
  intros He Hin. apply filter_In. split; [exact Hin | rewrite He; reflexivity].
Qed.

Lemma filter_effects (p : Event -> bool) (t : list Event) :
  (forall e, p e = true -> is_output e = false) ->
  filter p (effects t) = filter p t.
Proof.
  intros Hp. induction t as [|e t IH]; [reflexivity|].
  simpl. destruct (is_output e) eqn:He; simpl.
  - destruct (p e) eqn:Hpe; [|exact IH].
    rewrite (Hp e Hpe) in He. discriminate He.
  - rewrite IH. reflexivity.
Qed.

(** Every case of the effects of a command, one goal each. *)
Ltac effect_cases H :=
  unfold command_effects, authenticated_effects, refresh_effects in H;
  repeat match type of H with
         | context [match ?x with _ => _ end] => destruct x
         | context [if ?x then _ else _] => destruct x
         end;
  simpl in H.

Lemma run_completion (h : Host) (api : Remote) (cmd : Command) (conf : Config) :
  completion_of (run h api cmd conf) =
    if authenticated cmd && negb (truthy (token conf)) then Exit 1
    else match cmd with
         | CmdSensor _ device _ =>
             match getDevice conf device with
             | None => Throw (TypeError "name")
             | Some _ => Normal tt
             end
         | _ => Normal tt
         end.
Proof.
  destruct cmd as [client_id username password| | |verbose debug|s device debug|limit debug].
  - unfold run, action. rewrite auth_run. simpl.
    destruct (auth_token api _) as [res | e]; [|reflexivity].
    rewrite fetchDevices_run. destruct (all_devices api _); reflexivity.
  - reflexivity.
  - destruct (truthy (token conf)) eqn:Htok.
    + rewrite (fetch_run h api conf Htok), fetchDevices_run.
      destruct (all_devices api _); reflexivity.
    + rewrite no_token_exits_run by (reflexivity || exact Htok). reflexivity.
  - destruct (truthy (token conf)) eqn:Htok.
    + rewrite (devices_run h api verbose debug conf Htok).
      destruct (all_devices api _); reflexivity.
    + rewrite no_token_exits_run by (reflexivity || exact Htok). reflexivity.
  - destruct (truthy (token conf)) eqn:Htok.
    + rewrite (sensor_run h api s device debug conf Htok).
      destruct (getDevice conf device); [|reflexivity].
      destruct (sensor_values api _) as [res | e]; [|reflexivity].
      destruct (Lodash.last res); reflexivity.
    + rewrite no_token_exits_run by (reflexivity || exact Htok). reflexivity.
  - destruct (truthy (token conf)) eqn:Htok.
    + rewrite (timeline_run h api limit debug conf Htok).
      destruct (events api _); reflexivity.
    + rewrite no_token_exits_run by (reflexivity || exact Htok). reflexivity.
Qed.

Lemma reading_run_conf (h : Host) (api : Remote) (cmd : Command) (conf : Config) :
  reads_only cmd = true -> conf_of (run h api cmd conf) = conf.
Proof.
  intros Hcmd.
  destruct (truthy (token conf)) eqn:Htok.
  - destruct cmd as [| | |verbose debug|s device debug|limit debug]; try discriminate Hcmd.
    + rewrite (devices_run h api verbose debug conf Htok).
      destruct (all_devices api _); reflexivity.
    + rewrite (sensor_run h api s device debug conf Htok).
      destruct (getDevice conf device); [|reflexivity].
      destruct (sensor_values api _) as [res | e]; [|reflexivity].
      destruct (Lodash.last res); reflexivity.
    + rewrite (timeline_run h api limit debug conf Htok).
      destruct (events api _); reflexivity.
  - rewrite no_token_exits_run; [reflexivity | | exact Htok].
    destruct cmd; try discriminate Hcmd; reflexivity.
Qed.

(** X1: every request an authenticated command sends carries the header
    [Authorization: Bearer <token>] with the token of the store the run
    started on. *)
Theorem requests_carry_cached_token (h : Host) (api : Remote) (cmd : Command)
    (conf : Config) (r : Request) :
  authenticated cmd = true ->
  In (Get r) (trace_of (run h api cmd conf)) ->
  Authorization r = Some ("Bearer " ++ template (Configstore.get_token conf)).
Proof.
  intros Hcmd Hin. apply (in_effects (Get r) _ eq_refl) in Hin. rewrite run_effects in Hin.
  destruct cmd; try discriminate Hcmd; effect_cases Hin;
    repeat match type of Hin with
           | _ \/ _ => destruct Hin as [Hin | Hin]
           | False => destruct Hin
           | Get _ = Get _ => injection Hin as <-; reflexivity
           | _ = Get _ => discriminate Hin
           end.
Qed.

Lemma requests_carry_cached_token_witness :
  let api := constant_api (Rejected (mkError "no")) (Resolved []) (Resolved [])
               (Resolved []) in
  let conf := mkConfig (Some "t0") (Some [mkDevice "a1" "Hall"]) in
  Authorization (mkRequest "/events" [("order", PString "desc"); ("limit", PNumber 10)]
                   (Some "Bearer t0"))
  = Some ("Bearer " ++ template (Configstore.get_token conf)).
Proof.
  intros api conf.
  apply (requests_carry_cached_token ascii_host api (CmdTimeline None true) conf).
  - reflexivity.
  - simpl. left. reflexivity.
Defined.

(** X2: [devices], the six sensor commands and [timeline] only read the
    store: whatever the token and whatever the API answers, the store
    after the run is the store before it and the run performs no write. *)
Theorem reading_commands_keep_store (h : Host) (api : Remote) (cmd : Command)
    (conf : Config) :
  reads_only cmd = true ->
  conf_of (run h api cmd conf) = conf
  /\ forall e, In e (trace_of (run h api cmd conf)) -> is_write e = false.
Proof.
  intros Hcmd. split; [apply reading_run_conf; exact Hcmd|].
  intros e Hin. destruct (is_write e) eqn:He; [|reflexivity].
  assert (Hout : is_output e = false) by (destruct e; try discriminate He; reflexivity).
  apply (in_effects _ _ Hout) in Hin. rewrite run_effects in Hin.
  destruct cmd; try discriminate Hcmd; effect_cases Hin;
    repeat match type of Hin with
           | _ \/ _ => destruct Hin as [Hin | Hin]
           | False => destruct Hin
           | _ = e => subst e; discriminate He
           end.
Qed.

Lemma reading_commands_keep_store_witness :
  let api := constant_api (Resolved (mkAuth (Some "new")))
               (Resolved [mkRemote "b2" "Kitchen" false true (mkDate 2018 0 5 9 7)])
               (Resolved []) (Resolved []) in
  let conf := mkConfig (Some "t0") (Some [mkDevice "a1" "Hall"]) in
  conf_of (run ascii_host api (CmdDevices true true) conf) = conf.
Proof.
  intros api conf.
  apply (reading_commands_keep_store ascii_host api (CmdDevices true true) conf).
  reflexivity.
Defined.

(** X3: a run sends at most one request, except the run of [auth], which
    sends at most two; [logout] sends none. *)
Theorem request_count (h : Host) (api : Remote) (cmd : Command) (conf : Config) :
  List.length (filter is_request (trace_of (run h api cmd conf)))
  <= match cmd with
     | CmdAuth _ _ _ => 2
     | CmdLogout => 0
     | _ => 1
     end.
Proof.
  rewrite <- (filter_effects is_request) by (intros [] He; try discriminate He; reflexivity).
  rewrite run_effects.
  destruct cmd; unfold command_effects, authenticated_effects, refresh_effects;
    repeat match goal with
           | |- context [match ?x with _ => _ end] => destruct x
           | |- context [if ?x then _ else _] => destruct x
           end;
    simpl; lia.
Qed.

(** X4: a run ends in [process.exit] only when an authenticated command
    finds no token, and then with status 1 and without a request. *)
Theorem exit_only_without_token (h : Host) (api : Remote) (cmd : Command)
    (conf : Config) (code : Z) :
  completion_of (run h api cmd conf) = Exit code ->
  code = 1%Z
  /\ authenticated cmd = true
  /\ truthy (Configstore.get_token conf) = false
  /\ trace_of (run h api cmd conf) = [Log guidance].
Proof.
  intros Hexit. rewrite run_completion in Hexit.
  unfold Configstore.get_token.
  destruct (authenticated cmd) eqn:Hcmd, (truthy (token conf)) eqn:Htok; simpl in Hexit.
  - destruct cmd; try discriminate Hexit.
    destruct (getDevice conf device); discriminate Hexit.
  - injection Hexit as <-. rewrite (no_token_exits_run h api cmd conf Hcmd Htok).
    repeat split.
  - destruct cmd; try discriminate Hexit. discriminate Hcmd.
  - destruct cmd; try discriminate Hexit. discriminate Hcmd.
Qed.

Lemma exit_only_without_token_witness :
  let api := constant_api (Rejected (mkError "no")) (Resolved []) (Resolved [])
               (Resolved []) in
  (1 = 1)%Z
  /\ authenticated CmdFetch = true
  /\ truthy (Configstore.get_token (mkConfig (Some "") None)) = false
  /\ trace_of (run ascii_host api CmdFetch (mkConfig (Some "") None)) = [Log guidance].
Proof.
  intros api.
  apply (exit_only_without_token ascii_host api CmdFetch (mkConfig (Some "") None) 1%Z).
  reflexivity.
Defined.

(** X5: a run throws out of its action only in a sensor command that
    finds no device in the cache: the error is the read of [name] of
    [undefined], nothing was printed and no request was sent. *)
Theorem throw_only_on_empty_cache (h : Host) (api : Remote) (cmd : Command)
    (conf : Config) (r : Reason) :
  completion_of (run h api cmd conf) = Throw r ->
  r = TypeError "name"
  /\ (exists s device debug, cmd = CmdSensor s device debug)
  /\ elements (Configstore.get_devices conf) = []
  /\ trace_of (run h api cmd conf) = [].
Proof.
  intros Hthrow. pose proof Hthrow as Hrun. rewrite run_completion in Hthrow.
  destruct (authenticated cmd && negb (truthy (token conf))) eqn:Hgate;
    [discriminate Hthrow|].
  destruct cmd as [| | | |s device debug|]; try discriminate Hthrow.
  simpl in Hgate. apply negb_false_iff in Hgate.
  destruct (getDevice conf device) as [point|] eqn:Hpoint; [discriminate Hthrow|].
  injection Hthrow as <-.
  split; [reflexivity|]. split; [exists s, device, debug; reflexivity|].
  split.
  - unfold getDevice in Hpoint.
    destruct (elements (Configstore.get_devices conf)) as [|d l]; [reflexivity|].
    simpl in Hpoint. destruct (matchesProperty_name device d); simpl in Hpoint;
      [discriminate Hpoint|]. destruct (Lodash.find _ l); discriminate Hpoint.
  - rewrite (sensor_run h api s device debug conf Hgate), Hpoint. reflexivity.
Qed.

Lemma throw_only_on_empty_cache_witness :
  let api := constant_api (Rejected (mkError "no")) (Resolved []) (Resolved [])
               (Resolved []) in
  let conf := mkConfig (Some "t0") None in
  TypeError "name" = TypeError "name"
  /\ (exists s device debug, CmdSensor light None false = CmdSensor s device debug)
  /\ elements (Configstore.get_devices conf) = []
  /\ trace_of (run ascii_host api (CmdSensor light None false) conf) = [].
Proof.
  intros api conf.
  apply (throw_only_on_empty_cache ascii_host api (CmdSensor light None false) conf
           (TypeError "name")).
  reflexivity.
Defined.


(** ** Resolving against the cache *)

Lemma find_some {A} (p : A -> bool) (l : list A) (x : A) :
  Lodash.find p l = Some x -> In x l /\ p x = true.
Proof.
  induction l as [|y l IH]; simpl; [discriminate|].
  destruct (p y) eqn:Hy.
  - intros [= <-]. split; [left; reflexivity | exact Hy].
  - intros H. destruct (IH H) as [Hin Hp]. split; [right; exact Hin | exact Hp].
Qed.

Lemma find_none {A} (p : A -> bool) (l : list A) :
  Lodash.find p l = None -> forall x, In x l -> p x = false.
Proof.
  induction l as [|y l IH]; simpl; [intros _ x []|].
  destruct (p y) eqn:Hy; [discriminate|].
  intros H x [<- | Hin]; [exact Hy | apply (IH H x Hin)].
Qed.

Lemma getDevice_in_cache (conf : Config) (deviceName : option string) (d : DeviceRecord) :
  getDevice conf deviceName = Some d -> In d (elements (devices conf)).
Proof.
  unfold getDevice, Configstore.get_devices.
  destruct (Lodash.find (matchesProperty_name deviceName) (elements (devices conf)))
    as [found|] eqn:Hfind; simpl.
  - intros [= <-]. apply (find_some _ _ _ Hfind).
  - destruct (elements (devices conf)) as [|x l]; simpl; [discriminate|].
    intros [= <-]. left. reflexivity.
Qed.

(** X7: [getDevice] never makes a device up and gives up only on an empty
    cache: the result is [undefined] exactly when the cache has no device,
    a record it returns is one of the cache, and when the record does not
    bear the name asked for, no cached record does and the record is the
    first of the cache. *)
Theorem getDevice_from_cache (conf : Config) (deviceName : option string) :
  (getDevice conf deviceName = None <-> elements (Configstore.get_devices conf) = [])
  /\ (forall d, getDevice conf deviceName = Some d ->
        In d (elements (Configstore.get_devices conf))
        /\ (deviceName = Some (name d)
            \/ (hd_error (elements (Configstore.get_devices conf)) = Some d
                /\ forall x n, deviceName = Some n ->
                     In x (elements (Configstore.get_devices conf)) -> name x <> n))).
Proof.
  unfold getDevice. set (l := elements (Configstore.get_devices conf)).
  split.
  - split.
    + destruct l as [|d l]; [reflexivity|].
      simpl. destruct (matchesProperty_name deviceName d); simpl; [discriminate|].
      destruct (Lodash.find _ l); discriminate.
    + intros ->. reflexivity.
  - intros d Hd.
    destruct (Lodash.find (matchesProperty_name deviceName) l) as [found|] eqn:Hfind.
    + simpl in Hd. injection Hd as <-.
      destruct (find_some _ _ _ Hfind) as [Hin Hp]. split; [exact Hin|].
      left. destruct deviceName as [n|]; [|discriminate Hp].
      simpl in Hp. apply String.eqb_eq in Hp. rewrite Hp. reflexivity.
    + simpl in Hd. rewrite first_hd_error in Hd. split.
      * destruct l as [|x l]; [discriminate Hd|].
        simpl in Hd. injection Hd as <-. left. reflexivity.
      * right. split; [exact Hd|].
        intros x n -> Hx. pose proof (find_none _ _ Hfind x Hx) as Hp.
        simpl in Hp. apply String.eqb_neq. exact Hp.
Qed.

Lemma getDevice_from_cache_witness :
  let conf := mkConfig (Some "t0") (Some [mkDevice "a1" "Hall"; mkDevice "b2" "Kitchen"]) in
  In (mkDevice "a1" "Hall") (elements (Configstore.get_devices conf))
  /\ (Some "Attic" = Some (name (mkDevice "a1" "Hall"))
      \/ (hd_error (elements (Configstore.get_devices conf)) = Some (mkDevice "a1" "Hall")
          /\ forall x n, Some "Attic" = Some n ->
               In x (elements (Configstore.get_devices conf)) -> name x <> n)).
Proof.
  intros conf.
  apply (getDevice_from_cache conf (Some "Attic")).
  reflexivity.
Defined.

(** ** Refreshing, then resolving *)

Lemma find_unique_description (l : list RemoteDevice) (n : RemoteDevice) :
  NoDup (map description l) -> In n l ->
  Lodash.find (matchesProperty_name (Some (description n))) (map to_record l)
  = Some (to_record n).
Proof.
  induction l as [|x l IH]; simpl; [intros _ []|].
  intros Hnodup Hin. inversion Hnodup as [|? ? Hx Hl]; subst.
  destruct Hin as [-> | Hin].
  - rewrite String.eqb_refl. reflexivity.
  - assert (Hneq : description x <> description n).
    { intros Heq. apply Hx. rewrite Heq. apply in_map. exact Hin. }
    apply String.eqb_neq in Hneq. rewrite Hneq. apply (IH Hl Hin).
Qed.

(** X8: after a refresh that succeeded on devices with distinct
    descriptions, asking for the description of any of them resolves to
    the record with its own [device_id], and asking for nothing resolves to
    the first device of the response. *)
Theorem fetch_then_getDevice (api : Remote) (conf : Config) (l : list RemoteDevice)
    (n : RemoteDevice) :
  all_devices api (devices_request (Configstore.get_token conf)) = Resolved l ->
  NoDup (map description l) ->
  In n l ->
  getDevice (conf_of (fetchDevices api conf)) (Some (description n))
  = Some (mkDevice (device_id n) (description n))
  /\ getDevice (conf_of (fetchDevices api conf)) None
     = option_map (fun first => mkDevice (device_id first) (description first)) (hd_error l).
Proof.
  unfold Configstore.get_token. intros Hres Hnodup Hin.
  rewrite fetchDevices_run, Hres. unfold conf_of, getDevice. simpl.
  split.
  - rewrite (find_unique_description l n Hnodup Hin). reflexivity.
  - rewrite find_no_match by reflexivity. simpl. destruct l; reflexivity.
Qed.

Lemma fetch_then_getDevice_witness :
  let T := mkDate 2018 0 5 9 7 in
  let hall := mkRemote "a1" "Hall" false true T in
  let kitchen := mkRemote "b2" "Kitchen" true true T in
  let api := constant_api (Rejected (mkError "no")) (Resolved [hall; kitchen]) (Resolved [])
               (Resolved []) in
  let conf := mkConfig (Some "t0") (Some [mkDevice "z9" "Kitchen"]) in
  getDevice (conf_of (fetchDevices api conf)) (Some "Kitchen") = Some (mkDevice "b2" "Kitchen")
  /\ getDevice (conf_of (fetchDevices api conf)) None = Some (mkDevice "a1" "Hall").
Proof.
  intros T hall kitchen api conf.
  apply (fetch_then_getDevice api conf [hall; kitchen] kitchen).
  - reflexivity.
  - repeat constructor; simpl; intuition discriminate.
  - right. left. reflexivity.
Defined.

(** X9: of two refreshes in a row the last one that succeeds decides the
    cache: whatever the first one stored or failed to store, the list is
    the one of the second response, and the token is untouched. *)
Theorem fetch_last_write_wins (api1 api2 : Remote) (conf : Config)
    (l2 : list RemoteDevice) :
  all_devices api2 (devices_request (Configstore.get_token conf)) = Resolved l2 ->
  conf_of (fetchDevices api2 (conf_of (fetchDevices api1 conf)))
  = mkConfig (Configstore.get_token conf)
      (Some (map (fun n => mkDevice (device_id n) (description n)) l2)).
Proof.
  unfold Configstore.get_token. intros Hres.
  rewrite (fetchDevices_run api1 conf).
  destruct (all_devices api1 _) as [l1 | e]; unfold conf_of; simpl;
    rewrite fetchDevices_run; simpl; rewrite Hres; reflexivity.
Qed.

Lemma fetch_last_write_wins_witness :
  let T := mkDate 2018 0 5 9 7 in
  let api1 := constant_api (Rejected (mkError "no"))
                (Resolved [mkRemote "a1" "Hall" false true T; mkRemote "b2" "Kitchen" true true T])
                (Resolved []) (Resolved []) in
  let api2 := constant_api (Rejected (mkError "no"))
                (Resolved [mkRemote "c3" "Attic" false true T]) (Resolved []) (Resolved []) in
  let conf := mkConfig (Some "t0") None in
  conf_of (fetchDevices api2 (conf_of (fetchDevices api1 conf)))
  = mkConfig (Some "t0") (Some [mkDevice "c3" "Attic"]).
Proof.
  intros T api1 api2 conf.
  apply (fetch_last_write_wins api1 api2 conf [mkRemote "c3" "Attic" false true T]).
  reflexivity.
Defined.

(** ** From one run to the next *)

(** X10: after a run of [auth] that got a token and a device list that is
    not empty, a sensor command without a device name passes [checkAuth]
    and asks for the sensor of the first device of that list, with the new
    token in the header. *)
Theorem auth_then_sensor (h : Host) (api : Remote)
    (client_id username password tok : string) (conf : Config)
    (n : RemoteDevice) (l : list RemoteDevice) (s : Sensor) (debug : bool) :
  auth_token api (token_request client_id username password) = Resolved (mkAuth (Some tok)) ->
  tok <> "" ->
  all_devices api (devices_request (Some tok)) = Resolved (n :: l) ->
  exists rest,
    trace_of (run h api (CmdSensor s None debug)
                (conf_of (run h api (CmdAuth client_id username password) conf)))
    = Log (Lit "Point: " +++ Styled green (Lit (description n)))
      :: Get (mkRequest ("/devices/" ++ device_id n ++ "/" ++ sensor_endpoint s) []
                (Some ("Bearer " ++ tok)))
      :: rest
    /\ completion_of (run h api (CmdSensor s None debug)
                        (conf_of (run h api (CmdAuth client_id username password) conf)))
       = Normal tt.
Proof.
  intros Hauth Htok Hdev.
  assert (Hconf : conf_of (run h api (CmdAuth client_id username password) conf)
                  = mkConfig (Some tok) (Some (map to_record (n :: l)))).
  { unfold run, action. rewrite auth_run, Hauth. simpl access_token.
    rewrite fetchDevices_run. simpl token. rewrite Hdev. reflexivity. }
  rewrite Hconf.
  assert (Htruthy : truthy (token (mkConfig (Some tok) (Some (map to_record (n :: l))))) = true).
  { simpl. apply String.eqb_neq in Htok. rewrite Htok. reflexivity. }
  rewrite (sensor_run h api s None debug _ Htruthy).
  assert (Hpoint : getDevice (mkConfig (Some tok) (Some (map to_record (n :: l)))) None
                   = Some (to_record n)).
  { unfold getDevice. simpl. rewrite find_no_match by reflexivity. reflexivity. }
  rewrite Hpoint.
  destruct (sensor_values api _) as [res | e].
  - destruct (Lodash.last res); eexists; split; reflexivity.
  - eexists; split; reflexivity.
Qed.

Lemma auth_then_sensor_witness :
  let T := mkDate 2018 0 5 9 7 in
  let api := constant_api (Resolved (mkAuth (Some "new")))
               (Resolved [mkRemote "a1" "Hall" false true T])
               (Resolved [mkSample double_19_8 T]) (Resolved []) in
  exists rest,
    trace_of (run ascii_host api (CmdSensor pressure None false)
                (conf_of (run ascii_host api (CmdAuth "id" "me" "pw") (mkConfig None None))))
    = Log (Lit "Point: " +++ Styled green (Lit "Hall"))
      :: Get (mkRequest "/devices/a1/pressure" [] (Some "Bearer new"))
      :: rest
    /\ completion_of (run ascii_host api (CmdSensor pressure None false)
                        (conf_of (run ascii_host api (CmdAuth "id" "me" "pw")
                                    (mkConfig None None))))
       = Normal tt.
Proof.
  intros T api.
  apply (auth_then_sensor ascii_host api "id" "me" "pw" "new" (mkConfig None None)
           (mkRemote "a1" "Hall" false true T) [] pressure false).
  - reflexivity.
  - discriminate.
  - reflexivity.
Defined.

(** X11: when the token request succeeds but the response has no
    [access_token], the run of [auth] still prints the success line and
    starts the refresh, now with the header [Bearer undefined]; the store
    is left without a token, also when it held one before, so that the next
    authenticated command exits at [checkAuth]. *)
Theorem auth_without_access_token (h : Host) (api : Remote)
    (client_id username password : string) (conf : Config) :
  auth_token api (token_request client_id username password) = Resolved (mkAuth None) ->
  Configstore.get_token (conf_of (run h api (CmdAuth client_id username password) conf)) = None
  /\ (exists rest,
        trace_of (run h api (CmdAuth client_id username password) conf)
        = Get (token_request client_id username password)
          :: SetToken None
          :: Log (Styled green (Lit "Access token generated and saved!"))
          :: Log (Styled green (Lit "Fetching Points..."))
          :: Get (mkRequest "/devices" [] (Some "Bearer undefined"))
          :: rest)
  /\ (forall cmd, authenticated cmd = true ->
        completion_of (run h api cmd
                         (conf_of (run h api (CmdAuth client_id username password) conf)))
        = Exit 1).
Proof.
  intros Hauth.
  assert (Hrun : exists devs rest,
             run h api (CmdAuth client_id username password) conf
             = (Normal tt, mkConfig None devs,
                Get (token_request client_id username password)
                :: SetToken None
                :: Log (Styled green (Lit "Access token generated and saved!"))
                :: Log (Styled green (Lit "Fetching Points..."))
                :: Get (mkRequest "/devices" [] (Some "Bearer undefined"))
                :: rest)).
  { unfold run, action. rewrite auth_run, Hauth. simpl access_token.
    rewrite fetchDevices_run. simpl token.
    destruct (all_devices api _); eexists; eexists; reflexivity. }
  destruct Hrun as (devs & rest & Hrun). rewrite Hrun.
  split; [reflexivity|]. split; [exists rest; reflexivity|].
  intros cmd Hcmd. unfold conf_of. simpl.
  rewrite (no_token_exits_run h api cmd (mkConfig None devs) Hcmd eq_refl). reflexivity.
Qed.

Lemma auth_without_access_token_witness :
  let api := constant_api (Resolved (mkAuth None)) (Rejected (mkError "Unauthorized"))
               (Resolved []) (Resolved []) in
  let conf := mkConfig (Some "old") (Some [mkDevice "a1" "Hall"]) in
  Configstore.get_token (conf_of (run ascii_host api (CmdAuth "id" "me" "pw") conf)) = None
  /\ completion_of (run ascii_host api CmdFetch
                      (conf_of (run ascii_host api (CmdAuth "id" "me" "pw") conf)))
     = Exit 1.
Proof.
  intros api conf.
  destruct (auth_without_access_token ascii_host api "id" "me" "pw" conf eq_refl)
    as (Htoken & _ & Hnext).
  split; [exact Htoken | apply (Hnext CmdFetch); reflexivity].
Defined.

(** ** The device list, line by line *)

(** X12: when the device request resolves, [devices] prints for every
    device of the response, in its order, the name and the id and, with
    [--verbose], whether it is online (the negation of [offline]), whether
    it is active and when it was last heard from; nothing else is printed
    but the inspection of [--debug], and the store is not touched. *)
Theorem devices_listing (h : Host) (api : Remote) (verbose debug : bool) (conf : Config)
    (res : list RemoteDevice) :
  truthy (Configstore.get_token conf) = true ->
  all_devices api (devices_request (Configstore.get_token conf)) = Resolved res ->
  run h api (CmdDevices verbose debug) conf
  = (Normal tt, conf,
     Get (mkRequest "/devices" []
            (Some ("Bearer " ++ template (Configstore.get_token conf))%string))
     :: (if debug then [Inspected (DevicesBody res)] else [])
     ++ flat_map
          (fun device =>
             [Log (Lit "Name: " +++ Styled green (Lit (description device)));
              Log (Lit "ID: " +++ Styled green (Lit (device_id device)))]
             ++ (if verbose
                 then [Log (Lit "Online: "
                            +++ Styled green (Lit (if offline device then "✗" else "✔")));
                       Log (Lit "Active: "
                            +++ Styled green (Lit (if active device then "✔" else "✗")));
                       Log (Lit "Last seen: "
                            +++ Styled green (Lit (formatDate (last_heard_from_at device))))]
                 else []))
          res)%list.
Proof.
  unfold Configstore.get_token. intros Htok Hres.
  rewrite (devices_run h api verbose debug conf Htok), Hres.
  unfold inspected, devices_request. do 3 f_equal.
  apply flat_map_ext. intros device.
  unfold device_lines. rewrite Array_gt_1_false, app_nil_r.
  destruct (offline device); reflexivity.
Qed.

Lemma devices_listing_witness :
  let T := mkDate 2018 0 5 9 7 in
  let res := [mkRemote "a1" "Hall" true false T] in
  let api := constant_api (Rejected (mkError "no")) (Resolved res) (Resolved [])
               (Resolved []) in
  let conf := mkConfig (Some "t0") None in
  run ascii_host api (CmdDevices true false) conf
  = (Normal tt, conf,
     [Get (mkRequest "/devices" [] (Some "Bearer t0"));
      Log (Lit "Name: " +++ Styled green (Lit "Hall"));
      Log (Lit "ID: " +++ Styled green (Lit "a1"));
      Log (Lit "Online: " +++ Styled green (Lit "✗"));
      Log (Lit "Active: " +++ Styled green (Lit "✗"));
      Log (Lit "Last seen: " +++ Styled green (Lit "09:07 05/01/2018"))]).
Proof.
  intros T res api conf.
  apply (devices_listing ascii_host api true false conf res); reflexivity.
Defined.

(** ** Event types with empty segments *)

Lemma replace_colons_segments (ws : list string) :
  forallb (forall_chars isLower) ws = true ->
  Lodash.replace_colons (String.concat ":" ws) = String.concat " " ws.
Proof.
  induction ws as [|w ws IH]; [reflexivity|].
  intros H. simpl forallb in H. apply andb_true_iff in H. destruct H as [Hw Hws].
  destruct ws as [|w' ws].
  - simpl. apply replace_colons_lower. exact Hw.
  - rewrite !concat_cons2, replace_colons_app, (replace_colons_lower w Hw).
    change (":" ++ String.concat ":" (w' :: ws))
      with (String ":"%char (String.concat ":" (w' :: ws))).
    change (Lodash.replace_colons (String ":"%char (String.concat ":" (w' :: ws))))
      with (String " "%char (Lodash.replace_colons (String.concat ":" (w' :: ws)))).
    rewrite (IH Hws). reflexivity.
Qed.

Lemma segments_lower_or_space (ws : list string) :
  forallb (forall_chars isLower) ws = true ->
  forall_chars lower_or_space (String.concat " " ws) = true.
Proof.
  induction ws as [|w ws IH]; [reflexivity|].
  intros H. simpl forallb in H. apply andb_true_iff in H. destruct H as [Hw Hws].
  assert (Hw' : forall_chars lower_or_space w = true).
  { apply (forall_chars_weaken isLower); [|exact Hw].
    intros c Hc. unfold lower_or_space. rewrite Hc. reflexivity. }
  destruct ws as [|w' ws].
  - exact Hw'.
  - rewrite concat_cons2, forall_chars_app, Hw'. simpl. apply (IH Hws).
Qed.

Lemma flush_nonempty (w : string) :
  Lodash.flush w = filter (fun x => negb (String.eqb x "")) [w].
Proof. destruct w; reflexivity. Qed.

Lemma asciiWords_segments (ws : list string) :
  forallb (forall_chars isLower) ws = true ->
  Lodash.asciiWords (String.concat " " ws) = filter (fun w => negb (String.eqb w "")) ws.
Proof.
  unfold Lodash.asciiWords.
  induction ws as [|w ws IH]; [reflexivity|].
  intros H. simpl forallb in H. apply andb_true_iff in H. destruct H as [Hw Hws].
  assert (Hchars : forall_chars Lodash.isAsciiWordChar w = true).
  { apply (forall_chars_weaken isLower); [|exact Hw].
    intros c Hc. apply (lower_char c Hc). }
  destruct ws as [|w' ws].
  - simpl String.concat. rewrite <- (append_empty_r w) at 1.
    rewrite runs_app by exact Hchars. simpl Lodash.runs. apply flush_nonempty.
  - rewrite concat_cons2, runs_app by exact Hchars.
    change (" " ++ String.concat " " (w' :: ws))
      with (String " "%char (String.concat " " (w' :: ws))).
    rewrite runs_sep by reflexivity.
    change ("" ++ w) with w.
    rewrite (IH Hws), flush_nonempty.
    change (w :: w' :: ws) with ([w] ++ w' :: ws)%list.
    rewrite filter_app. reflexivity.
Qed.

Lemma filter_lower_words (ws : list string) :
  forallb (forall_chars isLower) ws = true ->
  forallb lower_word (filter (fun w => negb (String.eqb w "")) ws) = true.
Proof.
  induction ws as [|w ws IH]; [reflexivity|].
  intros H. simpl forallb in H. apply andb_true_iff in H. destruct H as [Hw Hws].
  simpl. destruct w as [|c w]; simpl.
  - apply (IH Hws).
  - simpl in Hw. rewrite Hw. apply (IH Hws).
Qed.

(** X13: in an event type made of lowercase segments and colons, empty
    segments leave no trace: doubled, leading and trailing colons give no
    extra blank, and the prettified type is the segments that are not
    empty, capitalized and joined by one blank each. *)
Theorem timelinePrettier_segments (h : Host) (ws : list string) :
  forallb (forall_chars isLower) ws = true ->
  timelinePrettier h (String.concat ":" ws)
  = String.concat " " (map capitalized (filter (fun w => negb (String.eqb w "")) ws)).
Proof.
  intros Hws. unfold timelinePrettier, Lodash.startCase, Lodash.words.
  rewrite (replace_colons_segments ws Hws).
  rewrite (deburr_unapos_plain h _ (segments_lower_or_space ws Hws)).
  rewrite (hasUnicodeWord_plain _ (segments_lower_or_space ws Hws)).
  rewrite (asciiWords_segments ws Hws), reduce_startCase_concat.
  rewrite (upperFirst_lower_words h _ (filter_lower_words ws Hws)).
  destruct (filter _ ws); reflexivity.
Qed.

Lemma timelinePrettier_segments_witness :
  timelinePrettier ascii_host ":door::opened:" = "Door Opened".
Proof.
  apply (timelinePrettier_segments ascii_host [""; "door"; ""; "opened"; ""]).
  reflexivity.
Defined.

(** ** Dates and numbers *)

Lemma digit_inj (a b : nat) : a < 10 -> b < 10 -> digit a = digit b -> a = b.
Proof.
  intros Ha Hb H. unfold digit in H.
  apply (f_equal nat_of_ascii) in H.
  rewrite !nat_ascii_embedding in H by lia. lia.
Qed.

Lemma two_digits_inj (a b : nat) : a < 100 -> b < 100 -> two_digits a = two_digits b -> a = b.
Proof.
  intros Ha Hb H.
  assert (Htens : digit (a / 10) = digit (b / 10)).
  { exact (f_equal (fun s => match s with String c _ => c | EmptyString => "0"%char end) H). }
  assert (Hunits : digit (a mod 10) = digit (b mod 10)).
  { exact (f_equal (fun s => match s with
                             | String _ (String c _) => c
                             | _ => "0"%char
                             end) H). }
  apply digit_inj in Htens; [| apply Nat.Div0.div_lt_upper_bound; lia
                              | apply Nat.Div0.div_lt_upper_bound; lia].
  apply digit_inj in Hunits; [| apply Nat.mod_upper_bound; lia | apply Nat.mod_upper_bound; lia].
  rewrite (Nat.div_mod_eq a 10), (Nat.div_mod_eq b 10), Htens, Hunits. reflexivity.
Qed.

Lemma layout_fields (hh mi day mon year : nat) :
  substring 0 2 (HH_MM_DD_MM_YYYY hh mi day mon year) = two_digits hh
  /\ substring 3 2 (HH_MM_DD_MM_YYYY hh mi day mon year) = two_digits mi
  /\ substring 6 2 (HH_MM_DD_MM_YYYY hh mi day mon year) = two_digits day
  /\ substring 9 2 (HH_MM_DD_MM_YYYY hh mi day mon year) = two_digits mon
  /\ substring 12 2 (HH_MM_DD_MM_YYYY hh mi day mon year) = two_digits (year / 100)
  /\ substring 14 2 (HH_MM_DD_MM_YYYY hh mi day mon year) = two_digits (year mod 100)
  /\ String.length (HH_MM_DD_MM_YYYY hh mi day mon year) = 16.
Proof. repeat split. Qed.

(** X14: the time a command prints for a calendar date with a year of
    four digits has 16 characters and determines the date to the minute:
    two such dates that print alike are the same. *)
Theorem formatDate_injective (d1 d2 : Date) :
  calendar d1 = true -> calendar d2 = true ->
  String.length (formatDate d1) = 16
  /\ (formatDate d1 = formatDate d2 -> d1 = d2).
Proof.
  intros H1 H2. rewrite (formatDate_layout d1 H1), (formatDate_layout d2 H2).
  split; [apply layout_fields|].
  unfold calendar in H1, H2.
  rewrite !andb_true_iff, !Nat.ltb_lt, !Nat.leb_le in H1, H2.
  destruct H1 as (((((Hh1 & Hm1) & Hd1) & Hmo1) & _) & Hy1).
  destruct H2 as (((((Hh2 & Hm2) & Hd2) & Hmo2) & _) & Hy2).
  destruct d1 as [y1 mo1 day1 h1 mi1], d2 as [y2 mo2 day2 h2 mi2]. simpl in *.
  intros H.
  destruct (layout_fields h1 mi1 day1 (mo1 + 1) y1) as (F1 & F2 & F3 & F4 & F5 & F6 & _).
  destruct (layout_fields h2 mi2 day2 (mo2 + 1) y2) as (G1 & G2 & G3 & G4 & G5 & G6 & _).
  rewrite H in F1, F2, F3, F4, F5, F6.
  rewrite G1 in F1. rewrite G2 in F2. rewrite G3 in F3. rewrite G4 in F4.
  rewrite G5 in F5. rewrite G6 in F6.
  assert (Hcent : forall y, y < 10000 -> y / 100 < 100).
  { intros y Hy. apply Nat.Div0.div_lt_upper_bound. exact Hy. }
  apply two_digits_inj in F1; [|lia|lia].
  apply two_digits_inj in F2; [|lia|lia].
  apply two_digits_inj in F3; [|lia|lia].
  apply two_digits_inj in F4; [|lia|lia].
  apply two_digits_inj in F5; [|apply Hcent; exact Hy2|apply Hcent; exact Hy1].
  apply two_digits_inj in F6; [|apply Nat.mod_upper_bound; lia|apply Nat.mod_upper_bound; lia].
  assert (Hy : y1 = y2).
  { rewrite (Nat.div_mod_eq y1 100), (Nat.div_mod_eq y2 100), F5, F6. reflexivity. }
  assert (Hmo : mo1 = mo2) by lia.
  subst. reflexivity.
Qed.

Lemma formatDate_injective_witness :
  String.length (formatDate (mkDate 2018 11 31 23 59)) = 16
  /\ (formatDate (mkDate 2018 11 31 23 59) = formatDate (mkDate 2018 11 31 23 59) ->
      mkDate 2018 11 31 23 59 = mkDate 2018 11 31 23 59).
Proof.
  apply (formatDate_injective (mkDate 2018 11 31 23 59) (mkDate 2018 11 31 23 59));
    reflexivity.
Defined.




(** ** Where requests and writes come from *)

(** X16: the device a sensor command names is the device it asks about,
    and it is a cached one: when the run sends a request, the path is
    [/devices/<id>/<endpoint>] for a record of the cache, and the first
    thing printed is the Point line with the name of that record. *)
Theorem sensor_queries_named_device (h : Host) (api : Remote) (s : Sensor)
    (device : option string) (debug : bool) (conf : Config) (r : Request) :
  In (Get r) (trace_of (run h api (CmdSensor s device debug) conf)) ->
  exists point,
    In point (elements (Configstore.get_devices conf))
    /\ path r = "/devices/" ++ id point ++ "/" ++ sensor_endpoint s
    /\ hd_error (trace_of (run h api (CmdSensor s device debug) conf))
       = Some (Log (Lit "Point: " +++ Styled green (Lit (name point)))).
Proof.
  intros Hin. destruct (truthy (token conf)) eqn:Htok.
  - pose proof (in_effects (Get r) _ eq_refl Hin) as Heff. rewrite run_effects in Heff.
    unfold command_effects in Heff. rewrite Htok in Heff. unfold authenticated_effects in Heff.
    rewrite (sensor_run h api s device debug conf Htok).
    destruct (getDevice conf device) as [point|] eqn:Hpoint; [|destruct Heff].
    exists point. split; [apply (getDevice_in_cache conf device point Hpoint)|].
    assert (Hr : r = sensor_request conf point s).
    { destruct Heff as [Heq | Heff]; [injection Heq as <-; reflexivity|].
      destruct (sensor_values api _) as [res | e];
        [destruct (Lodash.last res)|]; simpl in Heff;
        repeat match type of Heff with
               | _ \/ _ => destruct Heff as [Heff | Heff]
               | False => destruct Heff
               | _ = Get _ => discriminate Heff
               end. }
    subst r. split; [reflexivity|].
    destruct (sensor_values api _) as [res | e]; [destruct (Lodash.last res)|]; reflexivity.
  - rewrite no_token_exits_run in Hin by (reflexivity || exact Htok).
    destruct Hin as [Hin | []]. discriminate Hin.
Qed.

Lemma sensor_queries_named_device_witness :
  let api := constant_api (Rejected (mkError "no")) (Resolved [])
               (Rejected (mkError "Not found")) (Resolved []) in
  let conf := mkConfig (Some "t0") (Some [mkDevice "a1" "Hall"; mkDevice "b2" "Kitchen"]) in
  exists point,
    In point (elements (Configstore.get_devices conf))
    /\ path (mkRequest "/devices/a1/humidity" [] (Some "Bearer t0"))
       = "/devices/" ++ id point ++ "/" ++ sensor_endpoint humidity
    /\ hd_error (trace_of (run ascii_host api (CmdSensor humidity (Some "Attic") false) conf))
       = Some (Log (Lit "Point: " +++ Styled green (Lit (name point)))).
Proof.
  intros api conf.
  apply (sensor_queries_named_device ascii_host api humidity (Some "Attic") false conf).
  simpl. right. left. reflexivity.
Defined.

(** X17: the store is written only with what the API answered or by
    [logout]: a device list that a run stores is the list of records of a
    resolved device response, a token that a run stores is the
    [access_token] of the resolved token response of [auth], and only
    [logout] clears. *)
Theorem writes_come_from_answers (h : Host) (api : Remote) (cmd : Command) (conf : Config) :
  (forall l, In (SetDevices l) (trace_of (run h api cmd conf)) ->
     exists tok res,
       all_devices api (devices_request tok) = Resolved res
       /\ l = map (fun n => mkDevice (device_id n) (description n)) res)
  /\ (forall v, In (SetToken v) (trace_of (run h api cmd conf)) ->
        exists client_id username password,
          cmd = CmdAuth client_id username password
          /\ auth_token api (token_request client_id username password)
             = Resolved (mkAuth v))
  /\ (In Clear (trace_of (run h api cmd conf)) -> cmd = CmdLogout).
Proof.
  assert (Hrefresh : forall tok l, In (SetDevices l) (refresh_effects api tok) ->
            exists tok' res, all_devices api (devices_request tok') = Resolved res
                             /\ l = map to_record res).
  { intros tok l Hin. unfold refresh_effects in Hin.
    destruct (all_devices api (devices_request tok)) as [res | e] eqn:Hres; simpl in Hin.
    - destruct Hin as [Hin | [Hin | []]]; [discriminate Hin|].
      injection Hin as <-. exists tok, res. split; [exact Hres | reflexivity].
    - destruct Hin as [Hin | [Hin | []]]; discriminate Hin. }
  split; [|split].
  - intros l Hin. apply (in_effects (SetDevices l) _ eq_refl) in Hin.
    rewrite run_effects in Hin. unfold command_effects in Hin.
    destruct cmd as [client_id username password| | |verbose debug|s device debug|limit debug].
    + destruct (auth_token api _) as [res | e]; simpl in Hin.
      * destruct Hin as [Hin | [Hin | Hin]]; try discriminate Hin.
        apply (Hrefresh _ _ Hin).
      * destruct Hin as [Hin | [Hin | []]]; discriminate Hin.
    + destruct Hin as [Hin | []]. discriminate Hin.
    + destruct (truthy (token conf)); [apply (Hrefresh _ _ Hin) | destruct Hin].
    + effect_cases Hin;
        repeat match type of Hin with
               | _ \/ _ => destruct Hin as [Hin | Hin]
               | False => destruct Hin
               | _ = SetDevices _ => discriminate Hin
               end.
    + effect_cases Hin;
        repeat match type of Hin with
               | _ \/ _ => destruct Hin as [Hin | Hin]
               | False => destruct Hin
               | _ = SetDevices _ => discriminate Hin
               end.
    + effect_cases Hin;
        repeat match type of Hin with
               | _ \/ _ => destruct Hin as [Hin | Hin]
               | False => destruct Hin
               | _ = SetDevices _ => discriminate Hin
               end.
  - intros v Hin. apply (in_effects (SetToken v) _ eq_refl) in Hin.
    rewrite run_effects in Hin.
    destruct cmd as [client_id username password| | |verbose debug|s device debug|limit debug].
    + unfold command_effects in Hin.
      destruct (auth_token api _) as [[tok] | e] eqn:Hauth; simpl in Hin.
      * exists client_id, username, password. split; [reflexivity|].
        destruct Hin as [Hin | [Hin | Hin]]; try discriminate Hin.
        -- injection Hin as <-. exact Hauth.
        -- unfold refresh_effects in Hin. destruct (all_devices api _); simpl in Hin;
             repeat match type of Hin with
                    | _ \/ _ => destruct Hin as [Hin | Hin]
                    | False => destruct Hin
                    | _ = SetToken _ => discriminate Hin
                    end.
      * destruct Hin as [Hin | [Hin | []]]; discriminate Hin.
    + destruct Hin as [Hin | []]. discriminate Hin.
    + effect_cases Hin;
        repeat match type of Hin with
               | _ \/ _ => destruct Hin as [Hin | Hin]
               | False => destruct Hin
               | _ = SetToken _ => discriminate Hin
               end.
    + effect_cases Hin;
        repeat match type of Hin with
               | _ \/ _ => destruct Hin as [Hin | Hin]
               | False => destruct Hin
               | _ = SetToken _ => discriminate Hin
               end.
    + effect_cases Hin;
        repeat match type of Hin with
               | _ \/ _ => destruct Hin as [Hin | Hin]
               | False => destruct Hin
               | _ = SetToken _ => discriminate Hin
               end.
    + effect_cases Hin;
        repeat match type of Hin with
               | _ \/ _ => destruct Hin as [Hin | Hin]
               | False => destruct Hin
               | _ = SetToken _ => discriminate Hin
               end.
  - intros Hin. apply (in_effects Clear _ eq_refl) in Hin. rewrite run_effects in Hin.
    destruct cmd; [| reflexivity | | | |]; effect_cases Hin;
      repeat match type of Hin with
             | _ \/ _ => destruct Hin as [Hin | Hin]
             | False => destruct Hin
             | _ = Clear => discriminate Hin
             end.
Qed.

Lemma writes_come_from_answers_witness :
  let T := mkDate 2018 0 5 9 7 in
  let res := [mkRemote "a1" "Hall" false true T] in
  let api := constant_api (Rejected (mkError "no")) (Resolved res) (Resolved [])
               (Resolved []) in
  exists tok res',
    all_devices api (devices_request tok) = Resolved res'
    /\ [mkDevice "a1" "Hall"] = map (fun n => mkDevice (device_id n) (description n)) res'.
Proof.
  intros T res api.
  apply (writes_come_from_answers ascii_host api CmdFetch (mkConfig (Some "t0") None)).
  simpl. do 4 right. left. reflexivity.
Defined.
